(** * Row transforms, split predicates and notebook cells of the
      babyweight and taxi-fare preprocessing notebooks

    The development embeds the Python of the two Dataflow notebooks
    (the babyweight [to_csv] and [preprocess], the taxi-fare [to_csv] and
    [create_query]), the SQL of the split and feature queries, and the cells
    of the three notebooks that call outside, Python and shell, and states
    what the specification says about them. *)

From Stdlib Require Import ZArith String Ascii List Lia.
From Stdlib Require Import Floats.SpecFloat.
From stdpp Require Import gmap strings pretty list list_monad fin_maps.

Local Open Scope string_scope.
Local Open Scope Z_scope.

(* ===================================================================== *)
(** * Python values, exceptions and the object store                     *)
(* ===================================================================== *)

Module Python.

(** The exceptions the modelled code can meet. The first three are raised
    by the interpreter itself; the others stand for what the cloud client
    libraries, [subprocess] and [os] raise. *)
Inductive exn : Type :=
| KeyError (key : string)
| IndexError
| TypeError
| CalledProcessError (returncode : Z)
| OSError (errno : Z)
| GoogleAPIError (code : Z)
| ValueError
| ImportError
| DefaultCredentialsError.

(** Outcome of evaluating an expression or running a statement. *)
Inductive result (A : Type) : Type :=
| Ok (a : A)
| Raised (e : exn).
Arguments Ok {A} a.
Arguments Raised {A} e.

Global Instance result_ret : MRet result := λ A a, Ok a.
Global Instance result_bind : MBind result := λ A B f r,
  match r with Ok a => f a | Raised e => Raised e end.

(** The scalars a BigQuery row holds once the Beam reader has turned it
    into a dictionary: NULL, BOOLEAN, INTEGER, FLOAT and STRING columns.
    A float is an IEEE 754 binary64 value. *)
Inductive value : Type :=
| VNone
| VBool (b : bool)
| VInt (n : Z)
| VFloat (x : spec_float)
| VStr (s : string).

Definition prec64 : Z := 53.
Definition emax64 : Z := 1024.

(** [bool] is a subclass of [int]: [True] counts as 1 and [False] as 0. *)
Definition int_of_bool (b : bool) : Z := if b then 1 else 0.

(** [v > 1]. Ordering [None] or a [str] against an [int] raises
    [TypeError] in Python 3; a NaN compares false. *)
Definition gt_one (v : value) : result bool :=
  match v with
  | VNone => Raised TypeError
  | VBool b => Ok (1 <? int_of_bool b)
  | VInt n => Ok (1 <? n)
  | VFloat x => Ok (SFltb (SFone prec64 emax64) x)
  | VStr _ => Raised TypeError
  end.

(** [v - 1]. *)
Definition sub_one (v : value) : result value :=
  match v with
  | VNone => Raised TypeError
  | VBool b => Ok (VInt (int_of_bool b - 1))
  | VInt n => Ok (VInt (n - 1))
  | VFloat x => Ok (VFloat (SFsub prec64 emax64 x (SFone prec64 emax64)))
  | VStr _ => Raised TypeError
  end.

(** The integer an index stands for: an [int], or a [bool] counted as one. *)
Definition as_int (v : value) : option Z :=
  match v with
  | VInt n => Some n
  | VBool b => Some (int_of_bool b)
  | VNone | VFloat _ | VStr _ => None
  end.

(** [l[i]] on a list: an index in [0, len) counts from the front, one in
    [-len, 0) counts from the back, any other integer raises [IndexError];
    an index that is not an integer raises [TypeError]. *)
Definition list_getitem_int {A} (l : list A) (i : Z) : result A :=
  let len := Z.of_nat (length l) in
  let j := if i <? 0 then i + len else i in
  if (j <? 0) || (len <=? j) then Raised IndexError
  else match l !! Z.to_nat j with
       | Some a => Ok a
       | None => Raised IndexError
       end.

Definition list_getitem {A} (l : list A) (i : value) : result A :=
  match i with
  | VInt n => list_getitem_int l n
  | VBool b => list_getitem_int l (int_of_bool b)
  | VNone | VFloat _ | VStr _ => Raised TypeError
  end.

(** [s.split(c)] for a one-character separator. *)
Fixpoint split_go (c : ascii) (s : string) (cur : string) : list string :=
  match s with
  | EmptyString => [String.rev cur]
  | String a s' =>
      if Ascii.eqb a c then String.rev cur :: split_go c s' EmptyString
      else split_go c s' (String a cur)
  end.
Definition split (c : ascii) (s : string) : list string :=
  split_go c s EmptyString.

(** The white space of [str.split()]: U+0009 to U+000D, U+001C to U+0020,
    U+0085, U+00A0, U+1680, U+2000 to U+200A, U+2028, U+2029, U+202F, U+205F
    and U+3000. A text is held as its UTF-8 bytes, so a white-space
    character is one, two or three bytes long. *)
Definition isspace1 (a : ascii) : bool :=
  let a := nat_of_ascii a in
  ((9 <=? a) && (a <=? 13) || (28 <=? a) && (a <=? 32))%nat.

Definition isspace2 (a b : ascii) : bool :=
  let a := nat_of_ascii a in
  let b := nat_of_ascii b in
  ((a =? 194) && ((b =? 133) || (b =? 160)))%nat.

Definition isspace3 (a b c : ascii) : bool :=
  let a := nat_of_ascii a in
  let b := nat_of_ascii b in
  let c := nat_of_ascii c in
  ((a =? 225) && (b =? 154) && (c =? 128)
   || (a =? 226) && (b =? 128)
      && ((128 <=? c) && (c <=? 138) || (c =? 168) || (c =? 169) || (c =? 175))
   || (a =? 226) && (b =? 129) && (c =? 159)
   || (a =? 227) && (b =? 128) && (c =? 128))%nat.

(** [s.split()] without a separator: the words between runs of white
    space; white space at either end gives no empty word. [cur] is the word
    being read, backwards, if one has begun. *)
Fixpoint split_whitespace_go (s : string) (cur : option string)
    : list string :=
  let flush := match cur with Some w => [String.rev w] | None => [] end in
  match s with
  | EmptyString => flush
  | String a s1 =>
      let word := Some (String a (default EmptyString cur)) in
      if isspace1 a then (flush ++ split_whitespace_go s1 None)%list
      else
        match s1 with
        | EmptyString => split_whitespace_go s1 word
        | String b s2 =>
            if isspace2 a b then (flush ++ split_whitespace_go s2 None)%list
            else
              match s2 with
              | EmptyString => split_whitespace_go s1 word
              | String c s3 =>
                  if isspace3 a b c
                  then (flush ++ split_whitespace_go s3 None)%list
                  else split_whitespace_go s1 word
              end
        end
  end.
Definition split_whitespace (s : string) : list string :=
  split_whitespace_go s None.

(** [sep.join(l)]. *)
Definition join (sep : string) (l : list string) : string :=
  String.concat sep l.

(** How often a character stands in a text. *)
Fixpoint count_char (c : ascii) (s : string) : nat :=
  match s with
  | EmptyString => 0
  | String a s' => (if Ascii.eqb a c then 1 else 0) + count_char c s'
  end.

(** [os.path.join(a, b)] (posixpath) for two components. *)
Definition os_path_join (a b : string) : string :=
  match b with
  | String "/"%char _ => b
  | _ =>
      match String.rev a with
      | EmptyString => b
      | String "/"%char _ => a +:+ b
      | _ => a +:+ "/" +:+ b
      end
  end.

(** ** The object store

    Dictionaries are mutable objects: a variable holds a reference, and
    [copy.deepcopy] makes a new object. *)
Definition loc : Type := positive.
Abbreviation heap := (gmap loc (gmap string value)).

(** A computation reads and writes the store and returns or raises; what it
    wrote before raising stays written. *)
Definition St (A : Type) : Type := heap → heap * result A.

Global Instance St_ret : MRet St := λ A a h, (h, Ok a).
Global Instance St_bind : MBind St := λ A B f m h,
  match m h with
  | (h', Ok a) => f a h'
  | (h', Raised e) => (h', Raised e)
  end.

Definition lift {A} (r : result A) : St A := λ h, (h, r).

(** The dictionary a reference points to. Every reference the modelled
    code holds is live; a dangling one reads as the empty dictionary. *)
Definition deref (h : heap) (r : loc) : gmap string value :=
  default ∅ (h !! r).

(** [copy.deepcopy(r)]: the values are immutable scalars, so the copy is a
    new dictionary object with the same items. *)
Definition deepcopy (r : loc) : St loc := λ h,
  let r' := fresh (dom h) in (<[r' := deref h r]> h, Ok r').

(** [r[k]] *)
Definition getitem (r : loc) (k : string) : St value := λ h,
  match deref h r !! k with
  | Some v => (h, Ok v)
  | None => (h, Raised (KeyError k))
  end.

(** [r[k] = v] *)
Definition setitem (r : loc) (k : string) (v : value) : St unit := λ h,
  (<[r := <[k := v]> (deref h r)]> h, Ok tt).

(** [k in r] *)
Definition contains (r : loc) (k : string) : St bool := λ h,
  (h, Ok (bool_decide (is_Some (deref h r !! k)))).

Section Str.
(** [float.__repr__], the shortest decimal text that reads back as the
    same float. It belongs to the interpreter, not to the notebooks. *)
Variable float_str : spec_float → string.

(** [str(v)] *)
Definition str (v : value) : string :=
  match v with
  | VNone => "None"
  | VBool true => "True"
  | VBool false => "False"
  | VInt n => pretty n
  | VFloat x => float_str x
  | VStr s => s
  end.

(** The CSV text of a dictionary over given columns: [str] of the item, or
    [None] as text where the key is missing. *)
Definition render (cols : list string) (d : gmap string value) : string :=
  join ","
    (map (λ k, match d !! k with
               | Some v => str v
               | None => "None"
               end) cols).

(** The text a column contributes to a line of the babyweight [to_csv]. *)
Definition text_at (d : gmap string value) (k : string) : string :=
  match d !! k with
  | Some v => str v
  | None => "None"
  end.
End Str.

End Python.

Import Python.

(* ===================================================================== *)
(** * Beam pipelines and calls to the outside                             *)
(* ===================================================================== *)

Module Beam.

(** The transforms the notebooks apply. *)
Inductive ptransform : Type :=
| Read_BigQuerySource (query : string) (use_standard_sql : bool)
| FlatMap (fn : loc → St (list string))
| Write_WriteToText (file_path_prefix : string).

(** One application [input | label >> transform]; [input] is the label of
    the transform whose output is consumed, [None] for the pipeline itself. *)
Record applied : Type := {
  label : string;
  transform : ptransform;
  input : option string
}.

(** A pipeline is the transforms applied to it, in order of application. *)
Abbreviation pipeline := (list applied).

(** [pcoll | label >> transform]: adds the application and returns the new
    collection, named by its label. *)
Definition pipe (p : pipeline) (pcoll : option string) (l : string)
    (t : ptransform) : pipeline * option string :=
  ((p ++ [{| label := l; transform := t; input := pcoll |}])%list, Some l).

(** What [FlatMap(fn)] does with the elements of a bundle, one after the
    other: each is handed to [fn] and everything [fn] yields is emitted; an
    exception of [fn] fails the bundle. *)
Definition flat_map {A} (fn : loc → St (list A)) (rows : list loc)
    : St (list A) :=
  yields ← mapM fn rows; mret (concat yields).

End Beam.

Module Cloud.

(** Calls that leave the notebook: the file system, a subprocess, the Beam
    library and its runner, the BigQuery client, and what the notebook
    itself asks of the interpreter (the import of an installed package, a
    magic, a plot). Each can raise. The imports of the standard library
    ([os], [shutil], [subprocess], [datetime], [copy], [hashlib]) are not
    calls.
    - [beam_PipelineOptions] and [beam_Pipeline] are the two constructions
      of [preprocess], which check the options they are given;
      [pipeline_apply a] is one application [input | label >> transform],
      with the construction of its transform.
    - [bigquery_Client], [Dataset_from_string] and [bigquery_Dataset] are
      the constructions of the BigQuery cells; [bq_query q] is
      [bq.query(q)], [job_to_dataframe] its [.to_dataframe()] and
      [dataframe_head] is [df.head()].
    - [pyplot f args] is [plt.f(args)]; [load_ext], [bigquery_magic] and
      [writefile] are the magics [%load_ext], [%%bigquery] and
      [%%writefile]. *)
Inductive call : Type :=
| shutil_rmtree (path : string)
| os_makedirs (path : string)
| subprocess_check_call (argv : list string)
| pipeline_run (runner : string) (p : Beam.pipeline)
| job_wait_until_finish
| client_create_dataset (dataset_id : string)
| client_query (query : string) (destination : string)
| query_job_result (destination : string)
| client_extract_table (table : string) (destination_uri : string)
| extract_job_result (table : string)
| python_import (module : string)
| beam_PipelineOptions (flags : list string) (options : list (string * value))
| beam_Pipeline (runner : string) (options : list (string * value))
| pipeline_apply (a : Beam.applied)
| bigquery_Client (project : option string)
| Dataset_from_string (dataset_id : string)
| bigquery_Dataset (dataset_id : string)
| bq_query (query : string)
| job_to_dataframe
| dataframe_head
| pyplot (function : string) (args : list string)
| load_ext (extension : string)
| bigquery_magic (args : string) (cell : string)
| writefile (path : string).

(** What the outside answers: [None] when the call returns, [Some e] when it
    raises [e]. *)
Definition world : Type := call → option exn.

Inductive event : Type :=
| Called (c : call)
| Printed (line : string).

(** A notebook cell or function: given the outside's answers, the calls and
    prints it makes, and how it ends. *)
Definition Cell (A : Type) : Type := world → list event * result A.

Global Instance Cell_ret : MRet Cell := λ A a w, ([], Ok a).
Global Instance Cell_bind : MBind Cell := λ A B f m w,
  match m w with
  | (t, Ok a) => let '(t', r) := f a w in ((t ++ t')%list, r)
  | (t, Raised e) => (t, Raised e)
  end.

Definition invoke (c : call) : Cell unit := λ w,
  ([Called c], match w c with None => Ok tt | Some e => Raised e end).

(** A call made with [ignore_errors=True]. *)
Definition invoke_ignore_errors (c : call) : Cell unit := λ w,
  ([Called c], Ok tt).

Definition print (line : string) : Cell unit := λ w,
  ([Printed line], Ok tt).

(** [try: body  except: handler], the bare [except] that catches
    everything. *)
Definition try_except {A} (body handler : Cell A) : Cell A := λ w,
  match body w with
  | (t, Ok a) => (t, Ok a)
  | (t, Raised _) => let '(t', r) := handler w in ((t ++ t')%list, r)
  end.

(** [for x in xs: body] *)
Definition for_each {A} (xs : list A) (body : A → Cell unit) : Cell unit :=
  _ ← mapM body xs; mret tt.

(** The calls whose failure the notebooks do not let through: the removal of
    the old output ([ignore_errors=True] locally, [try]/[except: pass] on
    Cloud Storage) and the creation of a dataset ([try]/[except] that
    prints). *)
Definition guarded (c : call) : bool :=
  match c with
  | shutil_rmtree _
  | subprocess_check_call _
  | client_create_dataset _ => true
  | _ => false
  end.

(** The pipelines handed to a runner in a trace. *)
Definition pipelines_run (t : list event) : list Beam.pipeline :=
  omap (λ ev, match ev with
              | Called (pipeline_run _ p) => Some p
              | _ => None
              end) t.

(** The calls made in a trace, in order. *)
Definition calls (t : list event) : list call :=
  omap (λ ev, match ev with Called c => Some c | Printed _ => None end) t.

(** The lines printed in a trace, in order. *)
Definition printed (t : list event) : list string :=
  omap (λ ev, match ev with Printed l => Some l | Called _ => None end) t.

(** Whether every call of a list returns. *)
Definition all_return (w : world) (cs : list call) : bool :=
  forallb (λ c, match w c with None => true | Some _ => false end) cs.

(** A cell lets failures surface when, in every world:
    - an unguarded call of its run that raises is the last thing the cell
      does, and the cell ends with the exception of that call: nothing is
      printed or called after the failure, so no handler ran and nothing was
      tried again;
    - an exception the cell ends with is the one its last call raised, and
      that call is unguarded;
    - the cell returns when every unguarded call it makes returns. *)
Definition surfaces {A} (P : Cell A) : Prop :=
  ∀ w : world,
    (∀ pre c post e,
       (P w).1 = (pre ++ Called c :: post)%list → guarded c = false →
       w c = Some e → post = [] ∧ (P w).2 = Raised e)
    ∧ (∀ e, (P w).2 = Raised e →
            ∃ pre c, (P w).1 = (pre ++ [Called c])%list
                     ∧ guarded c = false ∧ w c = Some e)
    ∧ ((∀ c, Called c ∈ (P w).1 → guarded c = false → w c = None) →
       ∃ a, (P w).2 = Ok a).

(** A cell that makes only guarded calls. *)
Definition only_guarded {A} (P : Cell A) : Prop :=
  ∀ (w : world) c, Called c ∈ (P w).1 → guarded c = true.

(** A cell that makes no call and returns. *)
Definition silent {A} (P : Cell A) : Prop :=
  ∀ w : world, (∃ a, (P w).2 = Ok a) ∧ ∀ c, Called c ∉ (P w).1.

End Cloud.

(* ===================================================================== *)
(** * BigQuery: the natality queries and the split predicates             *)
(* ===================================================================== *)

Module BigQuery.

(** SQL truth values: [None] is NULL. A WHERE clause keeps a row when its
    condition is TRUE. *)
Definition sql_and (a b : option bool) : option bool :=
  match a, b with
  | Some false, _ | _, Some false => Some false
  | Some true, Some true => Some true
  | _, _ => None
  end.

Definition sql_gt (x : option Z) (c : Z) : option bool :=
  x' ← x; Some (c <? x').

Definition sql_gt_float (x : option spec_float) (c : spec_float) : option bool :=
  x' ← x; Some (SFltb c x').

Definition is_true (c : option bool) : bool :=
  match c with Some b => b | None => false end.

(** [MOD(x, y)]: the remainder has the sign of [x]; a zero divisor fails the
    query ([None]). *)
Definition MOD (x y : Z) : option Z :=
  if y =? 0 then None else Some (Z.rem x y).

(** A row of [publicdata.samples.natality], with the columns the queries
    read. *)
Record natality : Type := {
  weight_pounds : option spec_float;
  is_male : option bool;
  mother_age : option Z;
  plurality : option Z;
  gestation_weeks : option Z;
  year : option Z;
  month : option Z
}.

(** A row of the preprocessed output: [is_male] and [plurality] are STRING
    columns there. *)
Record preprocessed : Type := {
  out_weight_pounds : option spec_float;
  out_is_male : option string;
  out_mother_age : option Z;
  out_plurality : option string;
  out_gestation_weeks : option Z;
  out_hashmonth : option Z
}.

(** [CAST(b AS STRING)] on a BOOL. *)
Definition cast_bool_string (b : option bool) : option string :=
  b' ← b; Some (if b' : bool then "true" else "false").

(** [CAST(n AS STRING)] on an INT64. *)
Definition cast_int_string (n : option Z) : option string :=
  n' ← n; Some (pretty n').

Section Natality.
(** [FARM_FINGERPRINT], a hash function of the query engine. *)
Variable FARM_FINGERPRINT : string → Z.

(** [ABS(FARM_FINGERPRINT(CONCAT(CAST(YEAR AS STRING), CAST(month AS STRING))))] *)
Definition hashmonth (r : natality) : option Z :=
  y ← cast_int_string (year r);
  m ← cast_int_string (month r);
  Some (Z.abs (FARM_FINGERPRINT (y +:+ m))).

(** The WHERE clause shared by the Beam query and [CTE_Raw_Data]. *)
Definition where_clause (r : natality) : option bool :=
  sql_and (sql_gt (year r) 2000)
  (sql_and (sql_gt_float (weight_pounds r) (S754_zero false))
  (sql_and (sql_gt (mother_age r) 0)
  (sql_and (sql_gt (plurality r) 0)
  (sql_and (sql_gt (gestation_weeks r) 0)
           (sql_gt (month r) 0))))).

(** The dictionary the Beam BigQuery reader makes of a row of the Beam
    query: one item per selected column, [None] for NULL. *)
Definition rowdict (r : natality) : gmap string value :=
  <["weight_pounds" := from_option VFloat VNone (weight_pounds r)]>
  (<["is_male" := from_option VBool VNone (is_male r)]>
  (<["mother_age" := from_option VInt VNone (mother_age r)]>
  (<["plurality" := from_option VInt VNone (plurality r)]>
  (<["gestation_weeks" := from_option VInt VNone (gestation_weeks r)]>
  (<["hashmonth" := from_option VInt VNone (hashmonth r)]> ∅))))).

(** The [-- Ultrasound] branch of the UNION ALL query. *)
Definition ultrasound (r : natality) : preprocessed :=
  {| out_weight_pounds := weight_pounds r;
     out_is_male := cast_bool_string (is_male r);
     out_mother_age := mother_age r;
     out_plurality :=
       match plurality r with
       | Some 1 => Some "Single(1)"
       | Some 2 => Some "Twins(2)"
       | Some 3 => Some "Triplets(3)"
       | Some 4 => Some "Quadruplets(4)"
       | Some 5 => Some "Quintuplets(5)"
       | _ => Some "NULL"
       end;
     out_gestation_weeks := gestation_weeks r;
     out_hashmonth := hashmonth r |}.

(** The [-- No ultrasound] branch: its CASE has no ELSE, so it is NULL when
    no WHEN holds. *)
Definition no_ultrasound (r : natality) : preprocessed :=
  {| out_weight_pounds := weight_pounds r;
     out_is_male := Some "Unknown";
     out_mother_age := mother_age r;
     out_plurality :=
       match plurality r with
       | Some p =>
           if p =? 1 then Some "Single(1)"
           else if 1 <? p then Some "Multiple(2+)"
           else None
       | None => None
       end;
     out_gestation_weeks := gestation_weeks r;
     out_hashmonth := hashmonth r |}.
End Natality.

(** The WHERE clause of [selquery] for a step, on a row's [hashmonth]; the
    same three-way choice stands in the Beam [preprocess] and in the
    BigQuery load loop. *)
Definition selquery_where (step : string) (hashmonth : Z) : option bool :=
  if String.eqb step "train" then
    m ← MOD hashmonth 100; Some (m <? 80)
  else if String.eqb step "eval" then
    m ← MOD hashmonth 100; m' ← MOD hashmonth 100;
    Some ((80 <=? m) && (m' <? 90))
  else
    m ← MOD hashmonth 100; Some (90 <=? m).

(** The steps both loops run over. *)
Definition steps : list string := ["train"; "eval"].

End BigQuery.

(* ===================================================================== *)
(** * The babyweight notebook: [to_csv] and [preprocess]                  *)
(* ===================================================================== *)

Module Babyweight.

Definition CSV_COLUMNS : list string :=
  split ","%char "weight_pounds,is_male,mother_age,plurality,gestation_weeks".

Definition PLURALITY_NAMES : list string :=
  ["Single(1)"; "Twins(2)"; "Triplets(3)"; "Quadruplets(4)"; "Quintuplets(5)"].

(** The rows whose plurality can index the five names: an integer, or a
    boolean counted as one, from -4 to 5 (see [lines_of_ok]). *)
Definition plurality_ok (d : gmap string value) : Prop :=
  ∃ p n, d !! "plurality" = Some p ∧ as_int p = Some n ∧ -4 ≤ n ≤ 5.

Section ToCsv.
Variable float_str : spec_float → string.

(** [str(result[k]) if k in result else "None"] *)
Definition field (result : loc) (k : string) : St string :=
  b ← contains result k;
  if b : bool then v ← getitem result k; mret (str float_str v)
  else mret "None".

(** One turn of the loop body: [data = ','.join([...])] and the yielded
    [str("{}".format(data))], which is [data]. *)
Definition csv_line (result : loc) : St string :=
  fields ← mapM (field result) CSV_COLUMNS;
  mret (join "," fields).

(** [to_csv(rowdict)]. The function is a generator, consumed to the end
    by [beam.FlatMap]: the value is the list of the lines it yields. *)
Definition to_csv (rowdict : loc) : St (list string) :=
  no_ultrasound ← deepcopy rowdict;
  w_ultrasound ← deepcopy rowdict;
  _ ← setitem no_ultrasound "is_male" (VStr "Unknown");
  p ← getitem rowdict "plurality";
  multiple ← lift (gt_one p);
  _ ← (if multiple : bool
       then setitem no_ultrasound "plurality" (VStr "Multiple(2+)")
       else setitem no_ultrasound "plurality" (VStr "Single(1)"));
  p ← getitem rowdict "plurality";
  i ← lift (sub_one p);
  name ← lift (list_getitem PLURALITY_NAMES i);
  _ ← setitem w_ultrasound "plurality" (VStr name);
  mapM csv_line [no_ultrasound; w_ultrasound].

(** What [to_csv] computes, as a function of the items of its argument
    (see [to_csv_run]). *)
Definition lines_of (d : gmap string value) : result (list string) :=
  match d !! "plurality" with
  | None => Raised (KeyError "plurality")
  | Some p =>
      multiple ← gt_one p;
      i ← sub_one p;
      name ← list_getitem PLURALITY_NAMES i;
      mret [render float_str CSV_COLUMNS
              (<["plurality" :=
                   VStr (if multiple : bool then "Multiple(2+)" else "Single(1)")]>
                 (<["is_male" := VStr "Unknown"]> d));
            render float_str CSV_COLUMNS (<["plurality" := VStr name]> d)]
  end.
End ToCsv.

(** The query text of [preprocess]. *)
Definition query : string :=
"
SELECT
    weight_pounds,
    is_male,
    mother_age,
    plurality,
    gestation_weeks,
    ABS(FARM_FINGERPRINT(CONCAT(CAST(YEAR AS STRING), CAST(month AS STRING)))) AS hashmonth
FROM
    publicdata.samples.natality
WHERE
    year > 2000
    AND weight_pounds > 0
    AND mother_age > 0
    AND plurality > 0
    AND gestation_weeks > 0
    AND month > 0
".

(** The three-way choice of [selquery] on [step]. *)
Definition selquery (step query : string) : string :=
  if String.eqb step "train" then
    "SELECT * FROM (" +:+ query +:+ ") WHERE MOD(hashmonth, 100) < 80"
  else if String.eqb step "eval" then
    "SELECT * FROM (" +:+ query
      +:+ ") WHERE MOD(hashmonth, 100) >= 80 AND MOD(hashmonth, 100) < 90"
  else
    "SELECT * FROM (" +:+ query +:+ ") WHERE MOD(hashmonth, 100) >= 90".

Section Preprocess.
Import Beam Cloud.
Variable float_str : spec_float → string.
(** The notebook's globals [BUCKET] and [PROJECT], and the text of
    [datetime.datetime.now().strftime("%y%m%d-%H%M%S")]. *)
Variables BUCKET PROJECT now : string.

(** The body of the loop [for step in ["train", "eval"]]: one
    [p | read | csv | out] expression. *)
Definition apply_step (OUTPUT_DIR query : string) (p : pipeline)
    (step : string) : pipeline :=
  let selquery := selquery step query in
  let '(p, rows) :=
    pipe p None (step +:+ "_read") (Read_BigQuerySource selquery true) in
  let '(p, lines) :=
    pipe p rows (step +:+ "_csv") (FlatMap (to_csv float_str)) in
  let '(p, _) :=
    pipe p lines (step +:+ "_out")
      (Write_WriteToText (os_path_join OUTPUT_DIR (step +:+ ".csv"))) in
  p.

(** The pipeline [preprocess] has built when it calls [p.run()]. *)
Definition preprocess_pipeline (OUTPUT_DIR query : string) : pipeline :=
  foldl (apply_step OUTPUT_DIR query) [] ["train"; "eval"].

(** The [options] dictionary of [preprocess]. *)
Definition options (OUTPUT_DIR job_name : string) : list (string * value) :=
  [ ("staging_location",
     VStr (os_path_join (os_path_join OUTPUT_DIR "tmp") "staging"));
    ("temp_location", VStr (os_path_join OUTPUT_DIR "tmp"));
    ("job_name", VStr job_name);
    ("project", VStr PROJECT);
    ("teardown_policy", VStr "TEARDOWN_ALWAYS");
    ("no_save_main_session", VBool true) ].

(** [preprocess(in_test_mode)]. Beam checks the options when
    [PipelineOptions] and [Pipeline] are built and checks each transform when
    [|] applies it; each of these can raise before [p.run()] is reached. *)
Definition preprocess (in_test_mode : bool) : Cell unit :=
  let job_name := "preprocess-babyweight-features" +:+ "-" +:+ now in
  OUTPUT_DIR ←
    (if in_test_mode then
       _ ← print "Launching local job ... hang on";
       let OUTPUT_DIR := "./preproc" in
       _ ← invoke_ignore_errors (shutil_rmtree OUTPUT_DIR);
       _ ← invoke (os_makedirs OUTPUT_DIR);
       mret OUTPUT_DIR
     else
       _ ← print ("Launching Dataflow job " +:+ job_name +:+ " ... hang on");
       let OUTPUT_DIR := "gs://" +:+ BUCKET +:+ "/babyweight/preproc/" in
       _ ← try_except
             (invoke (subprocess_check_call
                        (split_whitespace ("gsutil -m rm -r " +:+ OUTPUT_DIR))))
             (mret tt);
       mret OUTPUT_DIR);
  let options := options OUTPUT_DIR job_name in
  _ ← invoke (beam_PipelineOptions [] options);
  let RUNNER := if in_test_mode then "DirectRunner" else "DataflowRunner" in
  _ ← invoke (beam_Pipeline RUNNER options);
  let query := if in_test_mode then query +:+ " LIMIT 100" else query in
  let p := preprocess_pipeline OUTPUT_DIR query in
  _ ← for_each p (λ a, invoke (pipeline_apply a));
  _ ← invoke (pipeline_run RUNNER p);
  if in_test_mode then
    _ ← invoke job_wait_until_finish;
    print "Done!"
  else mret tt.

(** The calls of [preprocess] that come before [p.run()] and whose failure
    ends it. *)
Definition before_run (in_test_mode : bool) : list call :=
  let job_name := "preprocess-babyweight-features" +:+ "-" +:+ now in
  let OUTPUT_DIR :=
    if in_test_mode then "./preproc"
    else "gs://" +:+ BUCKET +:+ "/babyweight/preproc/" in
  let RUNNER := if in_test_mode then "DirectRunner" else "DataflowRunner" in
  let query := if in_test_mode then query +:+ " LIMIT 100" else query in
  ((if in_test_mode then [os_makedirs OUTPUT_DIR] else [])
   ++ [beam_PipelineOptions [] (options OUTPUT_DIR job_name);
       beam_Pipeline RUNNER (options OUTPUT_DIR job_name)]
   ++ map pipeline_apply (preprocess_pipeline OUTPUT_DIR query))%list.
End Preprocess.

End Babyweight.

(* ===================================================================== *)
(** * The taxi-fare notebook: [to_csv] and [create_query]                 *)
(* ===================================================================== *)

Module Taxifare.

Definition CSV_COLUMNS : list string :=
  split ","%char
    "fare_amount,dayofweek,hourofday,pickuplon,pickuplat,dropofflon,dropofflat".

Section ToCsv.
Variable float_str : spec_float → string.

(** [to_csv(rowdict)]: [','.join([str(rowdict[k]) for k in CSV_COLUMNS])].
    The list [days] of the source is never read. *)
Definition to_csv (rowdict : loc) : St string :=
  fields ← mapM (λ k, v ← getitem rowdict k; mret (str float_str v))
                CSV_COLUMNS;
  mret (join "," fields).

(** The fields of a row: the first missing key raises. *)
Fixpoint fields_of (d : gmap string value) (cols : list string)
    : result (list string) :=
  match cols with
  | [] => Ok []
  | k :: cols =>
      match d !! k with
      | None => Raised (KeyError k)
      | Some v =>
          match fields_of d cols with
          | Ok fs => Ok (str float_str v :: fs)
          | Raised e => Raised e
          end
      end
  end.

(** What [to_csv] computes, as a function of the items of its argument
    (see [taxi_to_csv_run]). *)
Definition line_of (d : gmap string value) : result string :=
  match fields_of d CSV_COLUMNS with
  | Ok fs => Ok (join "," fs)
  | Raised e => Raised e
  end.
End ToCsv.

Import BigQuery.

(** The sampling condition of [basequery],
    [MOD(ABS(FARM_FINGERPRINT(...)), EVERY_N) = 1], on the fingerprint [f] of
    the row's pickup time. [EVERY_N] is the value of the text that
    [query.replace] puts in its place (the notebook passes products such as
    [50*10000]). *)
Definition basequery_sample (EVERY_N f : Z) : option bool :=
  m ← MOD (Z.abs f) EVERY_N; Some (m =? 1).

(** The [subsample] condition [create_query] appends for a phase. For any
    other phase the local is unbound and [create_query] raises: there is no
    query. *)
Definition subsample (phase : string) : option (Z → Z → option bool) :=
  if String.eqb phase "TRAIN" then
    Some (λ EVERY_N f,
      m ← MOD (Z.abs f) (EVERY_N * 100); m' ← MOD (Z.abs f) (EVERY_N * 100);
      Some ((EVERY_N * 0 <=? m) && (m' <? EVERY_N * 70)))
  else if String.eqb phase "VALID" then
    Some (λ EVERY_N f,
      m ← MOD (Z.abs f) (EVERY_N * 100); m' ← MOD (Z.abs f) (EVERY_N * 100);
      Some ((EVERY_N * 70 <=? m) && (m' <? EVERY_N * 85)))
  else if String.eqb phase "TEST" then
    Some (λ EVERY_N f,
      m ← MOD (Z.abs f) (EVERY_N * 100); m' ← MOD (Z.abs f) (EVERY_N * 100);
      Some ((EVERY_N * 85 <=? m) && (m' <? EVERY_N * 100)))
  else None.

(** Whether the [subsample] condition of a phase holds of a row. *)
Definition in_range (phase : string) (EVERY_N f : Z) : bool :=
  match subsample phase with
  | Some cond => is_true (cond EVERY_N f)
  | None => false
  end.

(** Whether the query [create_query(phase, sample_size)] keeps a row, as far
    as the hash conditions decide it. *)
Definition keeps (phase : string) (EVERY_N f : Z) : bool :=
  match subsample phase with
  | Some cond => is_true (sql_and (basequery_sample EVERY_N f) (cond EVERY_N f))
  | None => false
  end.

Definition phases : list string := ["TRAIN"; "VALID"; "TEST"].


(** The cell that creates the [bqml_taxifare] dataset: the client and the
    dataset object are built before the [try]. *)
Definition create_dataset_cell (PROJECT : string) : Cloud.Cell unit :=
  _ ← Cloud.invoke (Cloud.python_import "google.cloud.bigquery");
  _ ← Cloud.invoke (Cloud.bigquery_Client (Some PROJECT));
  _ ← Cloud.invoke (Cloud.bigquery_Dataset "bqml_taxifare");
  Cloud.try_except
    (_ ← Cloud.invoke (Cloud.client_create_dataset "bqml_taxifare");
     Cloud.print "Dataset created")
    (Cloud.print "Dataset already exists").

End Taxifare.

(* ===================================================================== *)
(** * The babyweight notebook: preprocessing with BigQuery               *)
(* ===================================================================== *)

Module BigQueryPreprocessing.
Import Cloud.

Section Cells.
(** The notebook's globals, the client's project, and the text of the
    UNION ALL query (modelled by [BigQuery.ultrasound] and
    [BigQuery.no_ultrasound]). *)
Variables BUCKET PROJECT client_project query : string.

Definition dataset_name : string := "temp_babyweight_dataset".

(** The cell that creates the temporary dataset: the client and the
    dataset object are built before the [try]. *)
Definition create_dataset_cell : Cell unit :=
  _ ← invoke (python_import "google.cloud.bigquery");
  _ ← invoke (bigquery_Client None);
  let dataset_id := client_project +:+ "." +:+ dataset_name in
  _ ← invoke (Dataset_from_string dataset_id);
  try_except
    (_ ← invoke (client_create_dataset dataset_id);
     print ("Created dataset " +:+ client_project +:+ "." +:+ dataset_name))
    (print ("Dataset " +:+ client_project +:+ "." +:+ dataset_name
              +:+ " already exists")).

(** The cell that runs the query for each step and writes it to a table. *)
Definition load_tables_cell : Cell unit :=
  for_each BigQuery.steps (λ step,
    let selquery := Babyweight.selquery step query in
    let table_name := "babyweight_" +:+ step in
    _ ← invoke (client_query selquery table_name);
    _ ← invoke (query_job_result table_name);
    print ("Query results loaded to table /projects/" +:+ client_project
             +:+ "/datasets/" +:+ dataset_name +:+ "/tables/" +:+ table_name)).

(** The cell that exports each table to CSV files. *)
Definition export_cell : Cell unit :=
  for_each BigQuery.steps (λ step,
    let destination_uri :=
      "gs://" +:+ BUCKET +:+ "/" +:+ ("babyweight/bq_data/" +:+ step +:+ "*.csv") in
    let table_name := "babyweight_" +:+ step in
    _ ← invoke (client_extract_table table_name destination_uri);
    _ ← invoke (extract_job_result table_name);
    print ("Exported " +:+ PROJECT +:+ ":" +:+ dataset_name +:+ "."
             +:+ table_name +:+ " to " +:+ destination_uri)).
End Cells.

End BigQueryPreprocessing.

(* ===================================================================== *)
(** * The BigQuery ML notebook: features and the training split           *)
(* ===================================================================== *)

Module Bqml.
Import BigQuery.

(** [IF(c, a, b)]: [a] when [c] is TRUE, [b] when it is FALSE or NULL. *)
Definition sql_if {A} (c : option bool) (a b : A) : A :=
  match c with Some true => a | _ => b end.

Definition sql_lt (x : option Z) (c : Z) : option bool :=
  x' ← x; Some (x' <? c).

(** The WHERE clause of every query of the notebook over the natality
    table. It does not test [month]. *)
Definition where_clause (r : natality) : option bool :=
  sql_and (sql_gt (year r) 2000)
  (sql_and (sql_gt (gestation_weeks r) 0)
  (sql_and (sql_gt (mother_age r) 0)
  (sql_and (sql_gt (plurality r) 0)
           (sql_gt_float (weight_pounds r) (S754_zero false))))).

(** [IF(mother_age < 18, 'LOW', IF(mother_age > 45, 'HIGH',
    CAST(mother_age AS STRING)))] *)
Definition mother_age_bucket (r : natality) : option string :=
  sql_if (sql_lt (mother_age r) 18) (Some "LOW")
    (sql_if (sql_gt (mother_age r) 45) (Some "HIGH")
       (cast_int_string (mother_age r))).

(** A row of [with_ultrasound] or [without_ultrasound]. *)
Record features : Type := {
  f_weight_pounds : option spec_float;
  f_is_male : option string;
  f_mother_age : option string;
  f_plurality : option string;
  f_gestation_weeks : option string;
  f_hashmonth : option Z
}.

Section Features.
Variable FARM_FINGERPRINT : string → Z.

Definition with_ultrasound (r : natality) : features :=
  {| f_weight_pounds := weight_pounds r;
     f_is_male := cast_bool_string (is_male r);
     f_mother_age := mother_age_bucket r;
     f_plurality := cast_int_string (plurality r);
     f_gestation_weeks := cast_int_string (gestation_weeks r);
     f_hashmonth := hashmonth FARM_FINGERPRINT r |}.

Definition without_ultrasound (r : natality) : features :=
  {| f_weight_pounds := weight_pounds r;
     f_is_male := Some "Unknown";
     f_mother_age := mother_age_bucket r;
     f_plurality := Some (sql_if (sql_gt (plurality r) 1) "Multiple" "Single");
     f_gestation_weeks := cast_int_string (gestation_weeks r);
     f_hashmonth := hashmonth FARM_FINGERPRINT r |}.
End Features.

(** [WHERE MOD(hashmonth, 4) < 3], the rows the models are trained on. *)
Definition train_where (hashmonth : option Z) : option bool :=
  h ← hashmonth; m ← MOD h 4; Some (m <? 3).

End Bqml.

(* ===================================================================== *)
(** * Shell cells: [%%bash] scripts and [!] lines                         *)
(* ===================================================================== *)

Module Shell.

(** The shell constructs the notebooks use. A command is its words as
    written, with the quotes removed and the variables not yet expanded.
    None of the scripts sets [-e] or [pipefail]. *)
Inductive sh : Type :=
| Run (argv : list string)
| RunSubst (subst : sh) (argv : list string)
| Redirect (c : sh) (file : string)
| Assign (var word : string)
| Export (var word : string)
| AssignSubst (var : string) (subst : sh)
| Pipe (l r : sh)
| Not (c : sh)
| Or (l r : sh)
| If (cond body : sh)
| Seq (first rest : sh).

(** The exit status each command ends with; 0 is success. *)
Definition world : Type := list string → Z.

(** The commands a script starts, in order, and its exit status.
    - [RunSubst]: a command one of whose words is a command substitution;
      the substitution runs first and its status is lost.
    - [Redirect]: the status is that of the redirected command; a file
      that cannot be opened fails the command, which the answer of the world
      for the command covers.
    - [Assign], [Export]: status 0. [AssignSubst]: an assignment whose word
      holds a command substitution has the status of the substitution.
    - [Pipe]: both sides run; the status is that of the right side.
    - [Not]: [! c], status 1 when [c] succeeds and 0 when it fails.
    - [Or]: [l || r] runs [r] only when [l] fails.
    - [If]: [if cond; then body; fi] runs [body] only when [cond] succeeds,
      and has status 0 when it does not.
    - [Seq]: the next line runs whatever the status of the line before, and
      the status is that of the last line. *)
Fixpoint exec (s : sh) (w : world) : list (list string) * Z :=
  match s with
  | Run argv => ([argv], w argv)
  | RunSubst subst argv => (((exec subst w).1 ++ [argv])%list, w argv)
  | Redirect c _ => exec c w
  | Assign _ _ | Export _ _ => ([], 0)
  | AssignSubst _ subst => exec subst w
  | Pipe l r => (((exec l w).1 ++ (exec r w).1)%list, (exec r w).2)
  | Not c => ((exec c w).1, if (exec c w).2 =? 0 then 1 else 0)
  | Or l r =>
      if (exec l w).2 =? 0 then ((exec l w).1, 0)
      else (((exec l w).1 ++ (exec r w).1)%list, (exec r w).2)
  | If cond body =>
      if (exec cond w).2 =? 0
      then (((exec cond w).1 ++ (exec body w).1)%list, (exec body w).2)
      else ((exec cond w).1, 0)
  | Seq first rest =>
      (((exec first w).1 ++ (exec rest w).1)%list, (exec rest w).2)
  end.

(** The lines of a script, one after the other. *)
Definition script (first : sh) (rest : list sh) : sh :=
  foldl Seq first rest.

(** Every command that stands in a script. *)
Fixpoint commands (s : sh) : list (list string) :=
  match s with
  | Run argv => [argv]
  | RunSubst subst argv => (commands subst ++ [argv])%list
  | Redirect c _ => commands c
  | Assign _ _ | Export _ _ => []
  | AssignSubst _ subst => commands subst
  | Pipe l r | Or l r | If l r | Seq l r => (commands l ++ commands r)%list
  | Not c => commands c
  end.

(** The command a script ends with, if it ends with a plain command: the
    last command of the last line, the right end of a pipe. A script that
    ends with [if], [||] or [!] has none. *)
Fixpoint last_command (s : sh) : option (list string) :=
  match s with
  | Run argv | RunSubst _ argv => Some argv
  | Redirect c _ | AssignSubst _ c => last_command c
  | Pipe _ r | Seq _ r => last_command r
  | Assign _ _ | Export _ _ | Not _ | Or _ _ | If _ _ => None
  end.

(** Whether a script takes its status from a command or an assignment at
    its end: no [!] stands where the status comes from. *)
Fixpoint status_from_command (s : sh) : bool :=
  match s with
  | Run _ | RunSubst _ _ | Assign _ _ | Export _ _ => true
  | Redirect c _ | AssignSubst _ c => status_from_command c
  | Pipe _ r | Or _ r | If _ r | Seq _ r => status_from_command r
  | Not _ => false
  end.

(** What a shell cell lets surface, in every world:
    - a nonzero status of the cell is the status, unchanged, of the last
      command it started;
    - when the cell ends with a plain command, its status is the status of
      that command;
    - no command is started twice. *)
Definition surfaces_last (s : sh) : Prop :=
  ∀ w : world,
    ((exec s w).2 ≠ 0 →
     ∃ pre c, (exec s w).1 = (pre ++ [c])%list ∧ w c = (exec s w).2)
    ∧ (∀ c, last_command s = Some c → (exec s w).2 = w c)
    ∧ NoDup (exec s w).1.

End Shell.

(* ===================================================================== *)
(** * The cells of the three notebooks that call outside                  *)
(* ===================================================================== *)

Module Notebooks.
Import Cloud Shell.

(** ** Python cells

    Cells that only bind names or define functions make no call and are not
    listed. Four cells are left unfinished for the student and do not run as
    they stand: the [preprocess] of the taxi-fare notebook (a syntax error
    at its first [# TODO]), the two cells that call it, and the second plot
    of the BigQuery ML notebook ([df = # TODO]). *)
Section PythonCells.
Variable float_str : spec_float → string.
(** The notebooks' globals, the text of [datetime.now()], the project of
    the default client, the UNION ALL query text, and [tf.__version__]. *)
Variables BUCKET PROJECT now client_project query tf_version : string.

(** [import tensorflow as tf], [import apache_beam as beam],
    [print(tf.__version__)]: the second cell of both Dataflow notebooks. *)
Definition imports_cell : Cell unit :=
  _ ← invoke (python_import "tensorflow");
  _ ← invoke (python_import "apache_beam");
  print tf_version.

(** [query_string] of the babyweight notebook. *)
Definition query_string : string :=
"
SELECT
    weight_pounds,
    is_male,
    mother_age,
    plurality,
    gestation_weeks,
    ABS(FARM_FINGERPRINT(CONCAT(CAST(YEAR AS STRING), CAST(month AS STRING)))) AS hashmonth
FROM
    publicdata.samples.natality
WHERE
    year > 2000
".

(** The cell that looks at a hundred rows of the query in a data frame. *)
Definition examine_cell : Cell unit :=
  _ ← invoke (python_import "google.cloud.bigquery");
  _ ← invoke (bigquery_Client (Some PROJECT));
  _ ← invoke (bq_query (query_string +:+ "LIMIT 100"));
  _ ← invoke job_to_dataframe;
  invoke dataframe_head.

(** The cell that defines [to_csv] and [preprocess] and ends with
    [preprocess(in_test_mode = False)]. *)
Definition preprocess_cell : Cell unit :=
  _ ← invoke (python_import "apache_beam");
  Babyweight.preprocess float_str BUCKET PROJECT now false.

(** [%%writefile /tmp/test.json] *)
Definition writefile_cell : Cell unit :=
  invoke (writefile "/tmp/test.json").

(** [%load_ext google.cloud.bigquery] *)
Definition load_ext_cell : Cell unit :=
  invoke (load_ext "google.cloud.bigquery").

(** A [%%bigquery --project $PROJECT] cell. The magic is handed the text of
    the cell as it stands; the cell is named here by the line of the
    notebook file at which it starts. *)
Definition bigquery_cell (cell : string) : Cell unit :=
  invoke (bigquery_magic "--project $PROJECT" cell).

(** The cell that plots the training loss of [demo.babyweight_model_asis]. *)
Definition training_info_cell : Cell unit :=
  _ ← invoke (python_import "google.cloud.bigquery");
  _ ← invoke (bigquery_Client (Some PROJECT));
  _ ← invoke (bq_query
        "SELECT * FROM ML.TRAINING_INFO(MODEL demo.babyweight_model_asis)");
  _ ← invoke job_to_dataframe;
  _ ← invoke (python_import "matplotlib.pyplot");
  _ ← invoke (pyplot "plot"
        ["iteration"; "loss"; "data=df"; "marker=o"; "color=orange";
         "linewidth=2"]);
  _ ← invoke (pyplot "plot"
        ["iteration"; "eval_loss"; "data=df"; "marker="; "color=green";
         "linewidth=2"; "linestyle=dashed"]);
  _ ← invoke (pyplot "xlabel" ["iteration"]);
  _ ← invoke (pyplot "ylabel" ["loss"]);
  invoke (pyplot "legend" []).

(** The Python cells of the babyweight Dataflow notebook. *)
Definition babyweight_cells : list (Cell unit) :=
  [ imports_cell;
    examine_cell;
    preprocess_cell;
    BigQueryPreprocessing.create_dataset_cell client_project;
    BigQueryPreprocessing.load_tables_cell client_project query;
    BigQueryPreprocessing.export_cell BUCKET PROJECT ].

(** Those of the taxi-fare notebook, the Dataflow part and the BigQuery ML
    part. *)
Definition taxifare_cells : list (Cell unit) :=
  [ imports_cell;
    writefile_cell;
    load_ext_cell;
    Taxifare.create_dataset_cell PROJECT;
    bigquery_cell "a_dataflow.ipynb:805";
    bigquery_cell "a_dataflow.ipynb:855";
    bigquery_cell "a_dataflow.ipynb:886" ].

(** Those of the BigQuery ML notebook on the natality data. *)
Definition bqml_cells : list (Cell unit) :=
  [ load_ext_cell;
    bigquery_cell "5_train_bqml.ipynb:130";
    bigquery_cell "5_train_bqml.ipynb:176";
    bigquery_cell "5_train_bqml.ipynb:265";
    bigquery_cell "5_train_bqml.ipynb:332";
    training_info_cell;
    bigquery_cell "5_train_bqml.ipynb:452";
    bigquery_cell "5_train_bqml.ipynb:490";
    bigquery_cell "5_train_bqml.ipynb:537";
    bigquery_cell "5_train_bqml.ipynb:584";
    bigquery_cell "5_train_bqml.ipynb:684";
    bigquery_cell "5_train_bqml.ipynb:850" ].

Definition python_cells : list (Cell unit) :=
  (babyweight_cells ++ taxifare_cells ++ bqml_cells)%list.
End PythonCells.

(** ** Shell cells *)

(** [!pip freeze | grep apache-beam || sudo pip install ...], the first
    cell of both Dataflow notebooks. *)
Definition pip_apache_beam : sh :=
  Or (Pipe (Run ["pip"; "freeze"]) (Run ["grep"; "apache-beam"]))
     (Run ["sudo"; "pip"; "install"; "apache-beam[gcp]==2.12.0"]).

(** The cell that makes the bucket if [gsutil ls] does not list it. *)
Definition make_bucket : sh :=
  If (Not (Pipe (Run ["gsutil"; "ls"]) (Run ["grep"; "-q"; "gs://${BUCKET}/"])))
     (Run ["gsutil"; "mb"; "-l"; "${REGION}"; "gs://${BUCKET}"]).

Definition ls_preproc : sh :=
  Run ["gsutil"; "ls"; "gs://$BUCKET/babyweight/preproc/*-00000*"].

Definition ls_bq_data : sh :=
  Run ["gsutil"; "ls"; "gs://$BUCKET/babyweight/bq_data/*000000000000*"].

Definition babyweight_shell_cells : list sh :=
  [pip_apache_beam; make_bucket; ls_preproc; ls_bq_data].

Definition gcloud_config : sh :=
  script (Run ["gcloud"; "config"; "set"; "project"; "$PROJECT"])
    [ Run ["gcloud"; "config"; "set"; "compute/region"; "$REGION"];
      RunSubst (Run ["which"; "python"])
        ["gcloud"; "config"; "set"; "ml_engine/local_python"; "`which python`"] ].

(** The two cells that remove the old output of the pipeline if it is
    listed. *)
Definition remove_preproc : sh :=
  If (Pipe (Run ["gsutil"; "ls"])
           (Run ["grep"; "-q"; "gs://${BUCKET}/taxifare/ch4/taxi_preproc/"]))
     (Run ["gsutil"; "-m"; "rm"; "-rf"; "gs://$BUCKET/taxifare/ch4/taxi_preproc/"]).

Definition remove_preproc_r : sh :=
  If (Pipe (Run ["gsutil"; "ls"; "-r"; "gs://${BUCKET}"])
           (Run ["grep"; "-q"; "gs://${BUCKET}/taxifare/ch4/taxi_preproc/"]))
     (Run ["gsutil"; "-m"; "rm"; "-rf";
           "gs://${BUCKET}/taxifare/ch4/taxi_preproc/"]).

Definition ls_taxi_preproc : sh :=
  Run ["gsutil"; "ls"; "-l"; "gs://$BUCKET/taxifare/ch4/taxi_preproc/"].

Definition head_train : sh :=
  Pipe (Run ["gsutil"; "cat";
             "gs://$BUCKET/taxifare/ch4/taxi_preproc/TRAIN.csv-00000-of-*"])
       (Run ["head"]).

Definition make_sample : sh :=
  script (If (Run ["["; "-d"; "sample"; "]"]) (Run ["rm"; "-rf"; "sample"]))
    [ Run ["mkdir"; "sample"];
      Redirect
        (Run ["gsutil"; "cat";
              "gs://$BUCKET/taxifare/ch4/taxi_preproc/TRAIN.csv-00000-of-*"])
        "sample/train.csv";
      Redirect
        (Run ["gsutil"; "cat";
              "gs://$BUCKET/taxifare/ch4/taxi_preproc/VALID.csv-00000-of-*"])
        "sample/valid.csv" ].

Definition copy_model : sh :=
  script (Assign "MODELDIR" "./taxifaremodel")
    [ Or (Run ["test"; "-d"; "$MODELDIR"]) (Run ["mkdir"; "$MODELDIR"]);
      Run ["cp"; "-r"; "../../03_model_performance/taxifaremodel/*";
           "$MODELDIR"] ].

Definition grep_feature_cols : sh :=
  Run ["grep"; "-A"; "15"; "feature_cols ="; "taxifaremodel/model.py"].

Definition grep_engineered : sh :=
  Run ["grep"; "-A"; "5"; "add_engineered_features("; "taxifaremodel/model.py"].

Definition train_locally : sh :=
  script (Run ["rm"; "-rf"; "taxifare.tar.gz"; "taxi_trained"])
    [ Export "PYTHONPATH" "${PYTHONPATH}:${PWD}/taxifare";
      Run ["python"; "-m"; "taxifaremodel.task";
           "--train_data_path=${PWD}/sample/train.csv";
           "--eval_data_path=${PWD}/sample/valid.csv";
           "--output_dir=${PWD}/taxi_trained";
           "--train_steps=10";
           "--job-dir=/tmp"] ].

Definition ls_export : sh :=
  Run ["ls"; "-R"; "taxi_trained/export"].

Definition show_local_model : sh :=
  script
    (AssignSubst "model_dir"
       (Pipe (Run ["ls"; "${PWD}/taxi_trained/export/exporter"])
             (Run ["tail"; "-1"])))
    [ Run ["saved_model_cli"; "show"; "--dir";
           "${PWD}/taxi_trained/export/exporter/${model_dir}"; "--all"] ].

Definition predict_local_model : sh :=
  script
    (AssignSubst "model_dir" (Run ["ls"; "${PWD}/taxi_trained/export/exporter"]))
    [ Run ["gcloud"; "ml-engine"; "local"; "predict";
           "--model-dir=${PWD}/taxi_trained/export/exporter/${model_dir}";
           "--json-instances=/tmp/test.json"] ].

(** The cell that removes the old model and submits the training job. *)
Definition submit_training : sh :=
  script (Assign "OUTDIR" "gs://${BUCKET}/taxifare/ch4/taxi_trained")
    [ AssignSubst "JOBNAME" (Run ["date"; "-u"; "+%y%m%d_%H%M%S"]);
      Run ["echo"; "$OUTDIR"; "$REGION"; "$JOBNAME"];
      Run ["gsutil"; "-m"; "rm"; "-rf"; "$OUTDIR"];
      Run ["gcloud"; "ml-engine"; "jobs"; "submit"; "training"; "$JOBNAME";
           "--region=$REGION";
           "--module-name=taxifaremodel.task";
           "--package-path=${PWD}/taxifaremodel";
           "--job-dir=$OUTDIR";
           "--staging-bucket=gs://$BUCKET";
           "--scale-tier=BASIC";
           "--runtime-version=$TFVERSION";
           "--";
           "--train_data_path=gs://${BUCKET}/taxifare/ch4/taxi_preproc/TRAIN*";
           "--eval_data_path=gs://${BUCKET}/taxifare/ch4/taxi_preproc/VALID*";
           "--train_steps=5000";
           "--output_dir=$OUTDIR"] ].

Definition ls_trained : sh :=
  Pipe (Run ["gsutil"; "ls";
             "gs://${BUCKET}/taxifare/ch4/taxi_trained/export/exporter"])
       (Run ["tail"; "-1"]).

Definition show_trained_model : sh :=
  script (AssignSubst "model_dir" ls_trained)
    [ Run ["saved_model_cli"; "show"; "--dir"; "${model_dir}"; "--all"] ].

Definition predict_trained_model : sh :=
  script (AssignSubst "model_dir" ls_trained)
    [ Run ["gcloud"; "ml-engine"; "local"; "predict";
           "--model-dir=${model_dir}";
           "--json-instances=/tmp/test.json"] ].

(** [!pip freeze | grep google-cloud-bigquery==1.21.0 || pip install ...] *)
Definition pip_bigquery : sh :=
  Or (Pipe (Run ["pip"; "freeze"])
           (Run ["grep"; "google-cloud-bigquery==1.21.0"]))
     (Run ["pip"; "install"; "google-cloud-bigquery==1.21.0"]).

Definition taxifare_shell_cells : list sh :=
  [ pip_apache_beam; gcloud_config; remove_preproc; remove_preproc_r;
    ls_taxi_preproc; head_train; make_sample; copy_model; grep_feature_cols;
    grep_engineered; train_locally; ls_export; show_local_model;
    predict_local_model; submit_training; ls_trained; show_trained_model;
    predict_trained_model; pip_bigquery ].

Definition gcloud_config_bqml : sh :=
  script (Run ["gcloud"; "config"; "set"; "project"; "$PROJECT"])
    [ Run ["gcloud"; "config"; "set"; "compute/region"; "$REGION"] ].

Definition make_demo_dataset : sh :=
  Run ["bq"; "--location=US"; "mk"; "-d"; "demo"].

Definition bqml_shell_cells : list sh :=
  [gcloud_config_bqml; make_demo_dataset].

Definition shell_cells : list sh :=
  (babyweight_shell_cells ++ taxifare_shell_cells ++ bqml_shell_cells)%list.

End Notebooks.

(* ===================================================================== *)
(** * Sample rows and worlds                                              *)
(* ===================================================================== *)

Module Samples.
Import BigQuery.

(** 7.5 as a binary64 float. *)
Definition f7_5 : spec_float := S754_finite false 8444249301319680 (-50).

(** A rendering of floats that is Python's at 7.5, the one float of the
    sample rows. *)
Definition float_str_7_5 (x : spec_float) : string :=
  match x with
  | S754_finite false 8444249301319680 (-50) => "7.5"
  | _ => "nan"
  end.

(** A stand-in for the engine's hash. *)
Definition fingerprint_stub (s : string) : Z := 1234567.

(** A birth of July 2005 that passes every filter of the queries. *)
Definition birth (male : option bool) (p : Z) : natality :=
  {| weight_pounds := Some f7_5;
     is_male := male;
     mother_age := Some 30;
     plurality := Some p;
     gestation_weeks := Some 39;
     year := Some 2005;
     month := Some 7 |}.

(** The row dictionary of a birth as the pipeline hands it to [to_csv],
    given the value of the [hashmonth] column. *)
Definition birth_dict (male : bool) (p hash : Z) : gmap string value :=
  <["weight_pounds" := VFloat f7_5]>
  (<["is_male" := VBool male]>
  (<["mother_age" := VInt 30]>
  (<["plurality" := VInt p]>
  (<["gestation_weeks" := VInt 39]>
  (<["hashmonth" := VInt hash]> ∅))))).

(** A taxi trip. *)
Definition trip : gmap string value :=
  <["fare_amount" := VFloat f7_5]>
  (<["dayofweek" := VInt 3]>
  (<["hourofday" := VInt 17]>
  (<["pickuplon" := VInt (-74)]>
  (<["pickuplat" := VInt 41]>
  (<["dropofflon" := VInt (-73)]>
  (<["dropofflat" := VInt 40]> ∅)))))).

(** The store with one live dictionary. *)
Definition store (d : gmap string value) : heap := {[1%positive := d]}.

(** The outside where every call returns. *)
Definition calm : Cloud.world := λ _, None.

(** The outside where [gsutil rm] exits with status 1 (nothing to remove)
    and every other call returns. *)
Definition nothing_to_remove : Cloud.world := λ c,
  match c with
  | Cloud.subprocess_check_call _ => Some (CalledProcessError 1)
  | _ => None
  end.

(** The outside where the dataset exists already (HTTP 409) and every
    other call returns. *)
Definition dataset_exists : Cloud.world := λ c,
  match c with
  | Cloud.client_create_dataset _ => Some (GoogleAPIError 409)
  | _ => None
  end.

(** The outside where the default credentials are missing: the client
    cannot be built, and every other call returns. *)
Definition no_credentials : Cloud.world := λ c,
  match c with
  | Cloud.bigquery_Client _ => Some DefaultCredentialsError
  | _ => None
  end.

(** The outside where the old directory cannot be removed (permission
    denied) and every other call returns. *)
Definition cannot_remove : Cloud.world := λ c,
  match c with
  | Cloud.shutil_rmtree _ => Some (OSError 13)
  | _ => None
  end.

(** The shell where every command succeeds. *)
Definition calm_shell : Shell.world := λ _, 0.

(** The shell where [gsutil rm] finds nothing to remove and exits with
    status 1, and every other command succeeds. *)
Definition nothing_to_remove_shell : Shell.world := λ argv,
  match argv with
  | "gsutil" :: "-m" :: "rm" :: _ => 1
  | _ => 0
  end.

(** The shell where [grep] finds no line and exits with status 1, and every
    other command succeeds. *)
Definition no_match_shell : Shell.world := λ argv,
  match argv with
  | "grep" :: _ => 1
  | _ => 0
  end.

(** The shell where [gsutil cat] cannot read the object and exits with
    status 1, and every other command succeeds. *)
Definition cannot_read_shell : Shell.world := λ argv,
  match argv with
  | "gsutil" :: "cat" :: _ => 1
  | _ => 0
  end.

(** The shell where [which] finds no program and exits with status 1, and
    every other command succeeds. *)
Definition no_python_shell : Shell.world := λ argv,
  match argv with
  | "which" :: _ => 1
  | _ => 0
  end.

End Samples.

(* ===================================================================== *)
(** * Running the store primitives                                        *)
(* ===================================================================== *)

Section StoreLemmas.
Implicit Types (h : heap) (r : loc) (d : gmap string value) (k : string).

Lemma bind_run {A B} (m : St A) (f : A → St B) h :
  (m ≫= f) h =
  match m h with (h', Ok a) => f a h' | (h', Raised e) => (h', Raised e) end.
Proof. reflexivity. Qed.

Lemma ret_run {A} (a : A) h : (mret a : St A) h = (h, Ok a).
Proof. reflexivity. Qed.

Lemma lift_run {A} (x : result A) h : lift x h = (h, x).
Proof. reflexivity. Qed.

Lemma deref_live h r d : h !! r = Some d → deref h r = d.
Proof. intros Hr. unfold deref. by rewrite Hr. Qed.

Lemma deepcopy_run h r d :
  h !! r = Some d →
  deepcopy r h = (<[fresh (dom h) := d]> h, Ok (fresh (dom h))).
Proof. intros Hr. unfold deepcopy. by rewrite (deref_live _ _ _ Hr). Qed.

Lemma getitem_run h r d k :
  h !! r = Some d →
  getitem r k h =
  (h, match d !! k with Some v => Ok v | None => Raised (KeyError k) end).
Proof.
  intros Hr. unfold getitem. rewrite (deref_live _ _ _ Hr).
  by destruct (d !! k).
Qed.

Lemma setitem_run h r d k v :
  h !! r = Some d → setitem r k v h = (<[r := <[k := v]> d]> h, Ok tt).
Proof. intros Hr. unfold setitem. by rewrite (deref_live _ _ _ Hr). Qed.

Lemma contains_run h r d k :
  h !! r = Some d →
  contains r k h = (h, Ok (bool_decide (is_Some (d !! k)))).
Proof. intros Hr. unfold contains. by rewrite (deref_live _ _ _ Hr). Qed.

(** A fresh reference differs from every live one. *)
Lemma fresh_not_live h r : is_Some (h !! r) → fresh (dom h) ≠ r.
Proof.
  intros Hr <-. apply (is_fresh (dom h)). by apply elem_of_dom.
Qed.

Lemma fresh_None h : h !! fresh (dom h) = None.
Proof. apply not_elem_of_dom, is_fresh. Qed.
End StoreLemmas.

(* ===================================================================== *)
(** * The babyweight [to_csv], read as a function of the row's items      *)
(* ===================================================================== *)

Section BabyweightToCsv.
Import Babyweight.
Variable float_str : spec_float → string.
Implicit Types (h : heap) (r : loc) (d : gmap string value) (k : string).

Lemma field_run h r d k :
  h !! r = Some d →
  field float_str r k h =
  (h, Ok (match d !! k with Some v => str float_str v | None => "None" end)).
Proof.
  intros Hr. unfold field. rewrite bind_run, (contains_run _ _ _ _ Hr).
  destruct (d !! k) as [v|] eqn:Hk.
  - rewrite bool_decide_eq_true_2 by eauto.
    by rewrite bind_run, (getitem_run _ _ _ _ Hr), Hk.
  - rewrite bool_decide_eq_false_2; [done|]. by intros [? ?].
Qed.

Lemma mapM_field_run h r d cols :
  h !! r = Some d →
  mapM (field float_str r) cols h =
  (h, Ok (map (λ k, match d !! k with
                    | Some v => str float_str v
                    | None => "None"
                    end) cols)).
Proof.
  intros Hr. induction cols as [|k cols IH]; [done|].
  cbn [mapM map]. rewrite bind_run, (field_run _ _ _ _ Hr).
  fold (mapM (field float_str r) cols).
  by rewrite bind_run, IH.
Qed.

Lemma csv_line_run h r d :
  h !! r = Some d → csv_line float_str r h = (h, Ok (render float_str CSV_COLUMNS d)).
Proof.
  intros Hr. unfold csv_line, render.
  by rewrite bind_run, (mapM_field_run _ _ _ _ Hr), ret_run.
Qed.

(** Running [to_csv] on a live reference: the outcome is [lines_of] of the
    items, and every dictionary that was live keeps its items. *)
Lemma to_csv_run h r d :
  h !! r = Some d →
  ∃ h', to_csv float_str r h = (h', lines_of float_str d)
        ∧ ∀ l, is_Some (h !! l) → h' !! l = h !! l.
Proof.
  intros Hr. unfold to_csv, lines_of.
  set (no := fresh (dom h)).
  assert (Hno : h !! no = None) by apply fresh_None.
  set (h1 := <[no := d]> h).
  set (w := fresh (dom h1)).
  assert (Hw : h1 !! w = None) by apply fresh_None.
  assert (Hwno : w ≠ no).
  { intros E. rewrite E in Hw. unfold h1 in Hw. by rewrite lookup_insert_eq in Hw. }
  assert (Hwh : h !! w = None).
  { unfold h1 in Hw. by rewrite lookup_insert_ne in Hw. }
  assert (Hnor : no ≠ r) by (intros E; congruence).
  assert (Hwr : w ≠ r) by (intros E; congruence).
  rewrite bind_run, (deepcopy_run _ _ _ Hr). fold no h1.
  assert (Hr1 : h1 !! r = Some d) by (unfold h1; by rewrite lookup_insert_ne).
  rewrite bind_run, (deepcopy_run _ _ _ Hr1). fold w.
  set (h2 := <[w := d]> h1).
  assert (Hno2 : h2 !! no = Some d).
  { unfold h2, h1. rewrite lookup_insert_ne by done. apply lookup_insert_eq. }
  rewrite bind_run, (setitem_run _ _ _ _ _ Hno2).
  set (dno := <["is_male" := VStr "Unknown"]> d).
  set (h3 := <[no := dno]> h2).
  assert (Hr3 : h3 !! r = Some d).
  { unfold h3, h2. by rewrite !lookup_insert_ne. }
  assert (Hno3 : h3 !! no = Some dno) by apply lookup_insert_eq.
  assert (Hframe3 : ∀ l, is_Some (h !! l) → h3 !! l = h !! l).
  { intros l [x Hl]. unfold h3, h2, h1.
    rewrite !lookup_insert_ne; [done|congruence..]. }
  rewrite bind_run, (getitem_run _ _ _ _ Hr3).
  destruct (d !! "plurality") as [p|] eqn:Hp; [|by eauto].
  rewrite bind_run, lift_run.
  destruct (gt_one p) as [multiple|e] eqn:Hgt; [|by eauto].
  cbn [mbind result_bind].
  set (dno' := <["plurality" :=
          VStr (if multiple then "Multiple(2+)" else "Single(1)")]> dno).
  set (h4 := <[no := dno']> h3).
  assert (Hstep : (if multiple
                   then setitem no "plurality" (VStr "Multiple(2+)")
                   else setitem no "plurality" (VStr "Single(1)")) h3
                  = (h4, Ok tt)).
  { unfold h4, dno'. destruct multiple; by rewrite (setitem_run _ _ _ _ _ Hno3). }
  rewrite bind_run, Hstep.
  assert (Hr4 : h4 !! r = Some d) by (unfold h4; by rewrite lookup_insert_ne).
  assert (Hframe4 : ∀ l, is_Some (h !! l) → h4 !! l = h !! l).
  { intros l Hl. unfold h4. rewrite lookup_insert_ne; [by apply Hframe3|].
    destruct Hl; congruence. }
  rewrite bind_run, (getitem_run _ _ _ _ Hr4), Hp.
  rewrite bind_run, lift_run.
  destruct (sub_one p) as [i|e] eqn:Hsub; [|by eauto].
  rewrite bind_run, lift_run. cbn [mbind result_bind].
  destruct (list_getitem PLURALITY_NAMES i) as [name|e] eqn:Hname; [|by eauto].
  assert (Hw4 : h4 !! w = Some d).
  { unfold h4, h3, h2. rewrite !lookup_insert_ne by done. apply lookup_insert_eq. }
  rewrite bind_run, (setitem_run _ _ _ _ _ Hw4).
  set (dw := <["plurality" := VStr name]> d).
  set (h5 := <[w := dw]> h4).
  assert (Hno5 : h5 !! no = Some dno').
  { unfold h5, h4. rewrite lookup_insert_ne by done. apply lookup_insert_eq. }
  assert (Hw5 : h5 !! w = Some dw) by apply lookup_insert_eq.
  exists h5. split.
  - cbn [mapM]. rewrite bind_run, (csv_line_run _ _ _ Hno5).
    rewrite bind_run, bind_run, (csv_line_run _ _ _ Hw5). reflexivity.
  - intros l Hl. unfold h5. rewrite lookup_insert_ne; [by apply Hframe4|].
    destruct Hl; congruence.
Qed.

Lemma to_csv_result h r d :
  h !! r = Some d → (to_csv float_str r h).2 = lines_of float_str d.
Proof. intros Hr. by destruct (to_csv_run h r d Hr) as (h' & -> & _). Qed.

Lemma to_csv_frame h r d l :
  h !! r = Some d → is_Some (h !! l) → (to_csv float_str r h).1 !! l = h !! l.
Proof.
  intros Hr Hl. destruct (to_csv_run h r d Hr) as (h' & -> & Hframe).
  by apply Hframe.
Qed.

End BabyweightToCsv.

(* ===================================================================== *)
(** * The taxi-fare [to_csv], read as a function of the row's items       *)
(* ===================================================================== *)

Section TaxifareToCsv.
Import Taxifare.
Variable float_str : spec_float → string.
Implicit Types (h : heap) (r : loc) (d : gmap string value) (k : string).

Lemma taxi_columns :
  CSV_COLUMNS = ["fare_amount"; "dayofweek"; "hourofday"; "pickuplon";
                 "pickuplat"; "dropofflon"; "dropofflat"].
Proof. reflexivity. Qed.

Lemma taxi_fields_run h r d cols :
  h !! r = Some d →
  mapM (λ k, v ← getitem r k; mret (str float_str v)) cols h
  = (h, fields_of float_str d cols).
Proof.
  intros Hr. induction cols as [|k cols IH]; [done|].
  cbn [mapM fields_of]. rewrite bind_run, bind_run, (getitem_run _ _ _ _ Hr).
  destruct (d !! k) as [v|]; [|done].
  rewrite ret_run.
  fold (mapM (λ k, v ← getitem r k; mret (str float_str v)) cols).
  rewrite bind_run, IH. by destruct (fields_of float_str d cols).
Qed.

Lemma taxi_to_csv_run h r d :
  h !! r = Some d →
  to_csv float_str r h = (h, line_of float_str d).
Proof.
  intros Hr. unfold to_csv, line_of.
  rewrite bind_run, (taxi_fields_run _ _ _ _ Hr).
  by destruct (fields_of float_str d CSV_COLUMNS).
Qed.

Lemma taxi_to_csv_result h r d :
  h !! r = Some d → (to_csv float_str r h).2 = line_of float_str d.
Proof. intros Hr. by rewrite (taxi_to_csv_run _ _ _ Hr). Qed.

Lemma taxi_to_csv_store h r d :
  h !! r = Some d → (to_csv float_str r h).1 = h.
Proof. intros Hr. by rewrite (taxi_to_csv_run _ _ _ Hr). Qed.

Lemma fields_of_ok d cols :
  (∃ fs, fields_of float_str d cols = Ok fs)
  ↔ Forall (λ k, is_Some (d !! k)) cols.
Proof.
  induction cols as [|k cols IH]; cbn [fields_of].
  - split; eauto.
  - rewrite Forall_cons, <-IH. destruct (d !! k) as [v|].
    + destruct (fields_of float_str d cols) as [fs|e].
      * split; eauto.
      * split; [intros [? ?]; done|intros [_ [? ?]]; done].
    + split; [intros [? ?]; done|intros [[? ?] _]; done].
Qed.

End TaxifareToCsv.

Section Indexing.

Lemma list_getitem_int_ok {A} (l : list A) (i : Z) :
  (∃ a, list_getitem_int l i = Ok a)
  ↔ - Z.of_nat (length l) ≤ i < Z.of_nat (length l).
Proof.
  unfold list_getitem_int.
  set (len := Z.of_nat (length l)).
  destruct (Z.ltb_spec i 0) as [Hi|Hi].
  - destruct (Z.ltb_spec (i + len) 0), (Z.leb_spec len (i + len)); cbn [orb];
      try (split; [intros [? ?]; done|lia]).
    destruct (l !! Z.to_nat (i + len)) as [a|] eqn:Hl.
    + split; [lia|eauto].
    + apply lookup_ge_None in Hl. split; [intros [? ?]; done|lia].
  - destruct (Z.ltb_spec i 0), (Z.leb_spec len i); cbn [orb];
      try (split; [intros [? ?]; done|lia]).
    destruct (l !! Z.to_nat i) as [a|] eqn:Hl.
    + split; [lia|eauto].
    + apply lookup_ge_None in Hl. split; [intros [? ?]; done|lia].
Qed.

(** In range from the front, indexing is the list lookup. *)
Lemma list_getitem_int_front {A} (l : list A) (i : Z) (a : A) :
  0 ≤ i → l !! Z.to_nat i = Some a → list_getitem_int l i = Ok a.
Proof.
  intros Hi Hl. unfold list_getitem_int.
  pose proof (lookup_lt_Some _ _ _ Hl) as Hlen.
  destruct (Z.ltb_spec i 0); [lia|].
  destruct (Z.ltb_spec i 0); [lia|].
  destruct (Z.leb_spec (Z.of_nat (length l)) i); [lia|].
  cbn [orb]. by rewrite Hl.
Qed.

End Indexing.

(* ===================================================================== *)
(** * The row transforms: where they return, what they yield, what they
      leave alone                                                         *)
(* ===================================================================== *)

Section RowTransforms.
Variable float_str : spec_float → string.
Implicit Types (h : heap) (r : loc) (d : gmap string value) (k : string).

Lemma babyweight_columns :
  Babyweight.CSV_COLUMNS
  = ["weight_pounds"; "is_male"; "mother_age"; "plurality"; "gestation_weeks"].
Proof. reflexivity. Qed.

(** The CSV text of a dictionary that has the five columns. *)
Lemma render_babyweight d (w m a p g : value) :
  d !! "weight_pounds" = Some w → d !! "is_male" = Some m →
  d !! "mother_age" = Some a → d !! "plurality" = Some p →
  d !! "gestation_weeks" = Some g →
  render float_str Babyweight.CSV_COLUMNS d
  = join "," [str float_str w; str float_str m; str float_str a;
              str float_str p; str float_str g].
Proof.
  intros Hw Hm Ha Hp Hg. unfold render. rewrite babyweight_columns.
  cbn [map]. by rewrite Hw, Hm, Ha, Hp, Hg.
Qed.

(** Where [lines_of] returns: exactly on an integer plurality from -4 to 5. *)
Lemma lines_of_ok d :
  (∃ lines, Babyweight.lines_of float_str d = Ok lines)
  ↔ ∃ p n, d !! "plurality" = Some p ∧ as_int p = Some n ∧ -4 ≤ n ≤ 5.
Proof.
  unfold Babyweight.lines_of.
  destruct (d !! "plurality") as [p|]; [|split; [intros [? ?]; done|by intros (? & ? & ? & _)]].
  assert (Hint : ∀ n, gt_one p = Ok (1 <? n) → sub_one p = Ok (VInt (n - 1)) →
                      as_int p = Some n →
    (∃ lines,
       (multiple ← gt_one p; i ← sub_one p;
        name ← list_getitem Babyweight.PLURALITY_NAMES i;
        mret [render float_str Babyweight.CSV_COLUMNS
                (<["plurality" :=
                     VStr (if multiple : bool then "Multiple(2+)" else "Single(1)")]>
                   (<["is_male" := VStr "Unknown"]> d));
              render float_str Babyweight.CSV_COLUMNS
                (<["plurality" := VStr name]> d)]) = Ok lines)
    ↔ ∃ p' n', Some p = Some p' ∧ as_int p' = Some n' ∧ -4 ≤ n' ≤ 5).
  { intros n -> -> Hn. cbn [mbind result_bind list_getitem].
    pose proof (list_getitem_int_ok Babyweight.PLURALITY_NAMES (n - 1)) as Hidx.
    cbn [Babyweight.PLURALITY_NAMES length] in Hidx.
    destruct (list_getitem_int Babyweight.PLURALITY_NAMES (n - 1)) as [name|e].
    - split; [intros _|by eauto].
      exists p, n. split_and!; [done|done|..]; destruct Hidx as [Hidx _];
        specialize (Hidx (ex_intro _ name eq_refl)); lia.
    - split; [intros [? ?]; done|].
      intros (p' & n' & [= <-] & Hn' & Hrange).
      assert (n' = n) as -> by congruence.
      destruct Hidx as [_ [? ?]]; [lia|done]. }
  destruct p as [|b|n|x|s].
  - split; [intros [? ?]; done|]. by intros (? & ? & [= <-] & ? & _).
  - apply (Hint (int_of_bool b)); done.
  - apply (Hint n); done.
  - split; [intros [? ?]; done|]. by intros (? & ? & [= <-] & ? & _).
  - split; [intros [? ?]; done|]. by intros (? & ? & [= <-] & ? & _).
Qed.

(** Where each [to_csv] returns: the babyweight one exactly on an integer
    plurality from -4 to 5, the taxi-fare one exactly on the rows that have
    all seven columns. *)
Lemma to_csv_returns_iff h r d :
  h !! r = Some d →
  ((∃ lines, (Babyweight.to_csv float_str r h).2 = Ok lines)
   ↔ ∃ p n, d !! "plurality" = Some p ∧ as_int p = Some n ∧ -4 ≤ n ≤ 5)
  ∧ ((∃ line, (Taxifare.to_csv float_str r h).2 = Ok line)
     ↔ Forall (λ k, is_Some (d !! k)) Taxifare.CSV_COLUMNS).
Proof.
  intros Hr. split.
  - rewrite (to_csv_result float_str h r d Hr). apply lines_of_ok.
  - rewrite (taxi_to_csv_result float_str h r d Hr).
    rewrite <-(fields_of_ok float_str). unfold Taxifare.line_of.
    destruct (Taxifare.fields_of float_str d Taxifare.CSV_COLUMNS) as [fs|e].
    + split; eauto.
    + split; intros [? ?]; done.
Qed.

(** C1 (amended). The babyweight [to_csv] terminates normally and yields its
    lines for every row dictionary whose plurality is an integer (or a
    boolean, which Python counts as one) from -4 to 5, whatever the other
    columns hold and whether or not they are there; the taxi-fare [to_csv]
    terminates normally and returns its line for every row dictionary that
    has all seven columns, whatever they hold. *)
Theorem to_csv_returns h r d :
  h !! r = Some d →
  (∀ p n, d !! "plurality" = Some p → as_int p = Some n → -4 ≤ n ≤ 5 →
          ∃ lines, (Babyweight.to_csv float_str r h).2 = Ok lines)
  ∧ (Forall (λ k, is_Some (d !! k)) Taxifare.CSV_COLUMNS →
     ∃ line, (Taxifare.to_csv float_str r h).2 = Ok line).
Proof.
  intros Hr. destruct (to_csv_returns_iff h r d Hr) as [Hbaby Htaxi]. split.
  - intros p n Hp Hn Hrange. apply Hbaby. eauto.
  - apply Htaxi.
Qed.

(** C4 (amended). For every natality row dictionary that has the expected
    columns and whose plurality is an integer [n] with 1 <= n <= 5, the
    babyweight [to_csv] yields exactly two lines of five comma-separated
    fields ([hashmonth] is dropped): the first has [is_male] replaced by
    [Unknown] and plurality by [Multiple(2+)] if [n > 1] and [Single(1)]
    otherwise; the second has plurality replaced by the n-th plurality name;
    the other fields are [str] of the input values. *)
Theorem babyweight_to_csv_lines h r d (w m a g : value) (n : Z) :
  h !! r = Some d →
  d !! "weight_pounds" = Some w → d !! "is_male" = Some m →
  d !! "mother_age" = Some a → d !! "plurality" = Some (VInt n) →
  d !! "gestation_weeks" = Some g →
  1 ≤ n ≤ 5 →
  ∃ name,
    Babyweight.PLURALITY_NAMES !! Z.to_nat (n - 1) = Some name
    ∧ (Babyweight.to_csv float_str r h).2
      = Ok [join "," [str float_str w; "Unknown"; str float_str a;
                      if 1 <? n then "Multiple(2+)" else "Single(1)";
                      str float_str g];
            join "," [str float_str w; str float_str m; str float_str a;
                      name; str float_str g]].
Proof.
  intros Hr Hw Hm Ha Hp Hg Hn.
  rewrite (to_csv_result float_str h r d Hr).
  assert (∃ name, Babyweight.PLURALITY_NAMES !! Z.to_nat (n - 1) = Some name)
    as [name Hname].
  { apply lookup_lt_is_Some. cbn [Babyweight.PLURALITY_NAMES length]. lia. }
  exists name. split; [done|].
  unfold Babyweight.lines_of. rewrite Hp.
  cbn [gt_one sub_one list_getitem mbind result_bind].
  rewrite (list_getitem_int_front _ _ name) by (done || lia).
  cbn [mbind result_bind mret result_ret].
  rewrite (render_babyweight _ w (VStr "Unknown") a
             (VStr (if 1 <? n then "Multiple(2+)" else "Single(1)")) g),
          (render_babyweight _ w m a (VStr name) g);
    [|by simplify_map_eq..].
  by destruct (1 <? n).
Qed.

(** C3 (amended). For a row that passes the filters of the query and whose
    plurality is at most 5, the error branches of the babyweight [to_csv]
    are not reached: the plurality is an integer [n] from 1 to 5, the
    indexing of the plurality names at [n - 1] succeeds, and [to_csv] yields
    its lines. *)
Theorem indexing_succeeds_up_to_quintuplets
    (FARM_FINGERPRINT : string → Z) (row : BigQuery.natality) (n : Z) h r :
  BigQuery.where_clause row = Some true →
  BigQuery.plurality row = Some n →
  n ≤ 5 →
  h !! r = Some (BigQuery.rowdict FARM_FINGERPRINT row) →
  1 ≤ n
  ∧ (∃ name, sub_one (VInt n) ≫= list_getitem Babyweight.PLURALITY_NAMES
             = Ok name)
  ∧ ∃ lines, (Babyweight.to_csv float_str r h).2 = Ok lines.
Proof.
  intros Hwhere Hpl Hn Hr.
  assert (1 ≤ n) as Hn1.
  { unfold BigQuery.where_clause in Hwhere. rewrite Hpl in Hwhere.
    cbn [BigQuery.sql_gt mbind option_bind] in Hwhere.
    destruct (Z.ltb_spec 0 n); [lia|].
    exfalso. revert Hwhere.
    destruct (BigQuery.sql_gt (BigQuery.year row) 2000) as [[]|],
      (BigQuery.sql_gt_float (BigQuery.weight_pounds row) (S754_zero false))
        as [[]|],
      (BigQuery.sql_gt (BigQuery.mother_age row) 0) as [[]|],
      (BigQuery.sql_gt (BigQuery.gestation_weeks row) 0) as [[]|],
      (BigQuery.sql_gt (BigQuery.month row) 0) as [[]|]; done. }
  split; [done|].
  assert (∃ name, list_getitem_int Babyweight.PLURALITY_NAMES (n - 1) = Ok name)
    as [name Hname].
  { apply list_getitem_int_ok. cbn [Babyweight.PLURALITY_NAMES length]. lia. }
  split; [by exists name|].
  rewrite (to_csv_result float_str h r _ Hr).
  apply lines_of_ok. exists (VInt n), n. split_and!; [|done|lia|lia].
  unfold BigQuery.rowdict. rewrite Hpl. by simplify_map_eq.
Qed.

(** C8. For every taxi-trip row dictionary that has the seven columns, the
    taxi-fare [to_csv] returns one line, [str] of the seven values in the
    fixed column order joined by commas, and does nothing else (the store
    is as it was). *)
Theorem taxi_to_csv_line h r d (v1 v2 v3 v4 v5 v6 v7 : value) :
  h !! r = Some d →
  d !! "fare_amount" = Some v1 → d !! "dayofweek" = Some v2 →
  d !! "hourofday" = Some v3 → d !! "pickuplon" = Some v4 →
  d !! "pickuplat" = Some v5 → d !! "dropofflon" = Some v6 →
  d !! "dropofflat" = Some v7 →
  Taxifare.to_csv float_str r h
  = (h, Ok (join "," [str float_str v1; str float_str v2; str float_str v3;
                      str float_str v4; str float_str v5; str float_str v6;
                      str float_str v7])).
Proof.
  intros Hr H1 H2 H3 H4 H5 H6 H7.
  rewrite (taxi_to_csv_run float_str h r d Hr). unfold Taxifare.line_of.
  rewrite taxi_columns.
  cbn [Taxifare.fields_of]. by rewrite H1, H2, H3, H4, H5, H6, H7.
Qed.

(** C9. Neither [to_csv] changes its argument or any other object that was
    there: after the babyweight [to_csv] (which writes only to its two deep
    copies) every dictionary that was live, the row among them, holds what
    it held, whether the call returned or raised; the taxi-fare [to_csv]
    leaves the whole store as it was. *)
Theorem to_csv_leaves_store h r d :
  h !! r = Some d →
  ((Babyweight.to_csv float_str r h).1 !! r = Some d
   ∧ ∀ l, is_Some (h !! l) → (Babyweight.to_csv float_str r h).1 !! l = h !! l)
  ∧ (Taxifare.to_csv float_str r h).1 = h.
Proof.
  intros Hr. split_and!.
  - rewrite (to_csv_frame float_str h r d r Hr); eauto.
  - intros l Hl. exact (to_csv_frame float_str h r d l Hr Hl).
  - exact (taxi_to_csv_store float_str h r d Hr).
Qed.

(** C10. Each [to_csv] is deterministic: two calls on row dictionaries with
    equal items give equal outcomes (the same lines, or the same exception),
    whatever else the store holds and wherever the rows live in it. *)
Theorem to_csv_deterministic h1 r1 h2 r2 d :
  h1 !! r1 = Some d → h2 !! r2 = Some d →
  (Babyweight.to_csv float_str r1 h1).2 = (Babyweight.to_csv float_str r2 h2).2
  ∧ (Taxifare.to_csv float_str r1 h1).2 = (Taxifare.to_csv float_str r2 h2).2.
Proof.
  intros Hr1 Hr2. split.
  - exact (eq_trans (to_csv_result float_str h1 r1 d Hr1)
                    (eq_sym (to_csv_result float_str h2 r2 d Hr2))).
  - exact (eq_trans (taxi_to_csv_result float_str h1 r1 d Hr1)
                    (eq_sym (taxi_to_csv_result float_str h2 r2 d Hr2))).
Qed.

(** C5 (amended). For every row that passes the shared filters and has
    1 <= plurality <= 5, the two lines of the babyweight [to_csv] carry the
    plurality texts of the two branches of the UNION ALL query and, without
    ultrasound, the same [Unknown] for [is_male]; with ultrasound the Beam
    line carries [str] of the boolean ([True], [False], or [None] for NULL)
    where the query has [CAST(is_male AS STRING)] ([true], [false], or
    NULL). *)
Theorem beam_agrees_with_bigquery
    (FARM_FINGERPRINT : string → Z) (row : BigQuery.natality) (n : Z) h r :
  BigQuery.where_clause row = Some true →
  BigQuery.plurality row = Some n →
  1 ≤ n ≤ 5 →
  h !! r = Some (BigQuery.rowdict FARM_FINGERPRINT row) →
  let w := str float_str (from_option VFloat VNone (BigQuery.weight_pounds row)) in
  let a := str float_str (from_option VInt VNone (BigQuery.mother_age row)) in
  let g := str float_str (from_option VInt VNone (BigQuery.gestation_weeks row)) in
  let m := str float_str (from_option VBool VNone (BigQuery.is_male row)) in
  let bq_no := BigQuery.no_ultrasound FARM_FINGERPRINT row in
  let bq_w := BigQuery.ultrasound FARM_FINGERPRINT row in
  ∃ pl_no pl_w,
    BigQuery.out_plurality bq_no = Some pl_no
    ∧ BigQuery.out_is_male bq_no = Some "Unknown"
    ∧ BigQuery.out_plurality bq_w = Some pl_w
    ∧ (Babyweight.to_csv float_str r h).2
      = Ok [join "," [w; "Unknown"; a; pl_no; g]; join "," [w; m; a; pl_w; g]]
    ∧ match BigQuery.is_male row with
      | Some b =>
          m = (if b then "True" else "False")
          ∧ BigQuery.out_is_male bq_w = Some (if b then "true" else "false")
      | None => m = "None" ∧ BigQuery.out_is_male bq_w = None
      end.
Proof.
  intros Hwhere Hpl Hn Hr w a g m bq_no bq_w.
  destruct (babyweight_to_csv_lines h r _
              (from_option VFloat VNone (BigQuery.weight_pounds row))
              (from_option VBool VNone (BigQuery.is_male row))
              (from_option VInt VNone (BigQuery.mother_age row))
              (from_option VInt VNone (BigQuery.gestation_weeks row))
              n Hr) as (name & Hname & Hlines);
    [unfold BigQuery.rowdict; rewrite ?Hpl; by simplify_map_eq..|done|].
  exists (if 1 <? n then "Multiple(2+)" else "Single(1)"), name.
  split_and!.
  - unfold bq_no, BigQuery.no_ultrasound. cbn [BigQuery.out_plurality].
    rewrite Hpl. destruct (Z.eqb_spec n 1) as [->|]; [done|].
    destruct (Z.ltb_spec 1 n); [done|lia].
  - done.
  - unfold bq_w, BigQuery.ultrasound. cbn [BigQuery.out_plurality].
    rewrite Hpl. rewrite <-Hname.
    assert (n = 1 ∨ n = 2 ∨ n = 3 ∨ n = 4 ∨ n = 5) as Hcases by lia.
    destruct Hcases as [->|[->|[->|[->| ->]]]]; reflexivity.
  - exact Hlines.
  - unfold m, bq_w, BigQuery.ultrasound. cbn [BigQuery.out_is_male].
    destruct (BigQuery.is_male row) as [[]|]; split; reflexivity.
Qed.

End RowTransforms.

(* ===================================================================== *)
(** * The row transforms at the sample rows                               *)
(* ===================================================================== *)

Section RowTransformInstances.
Import Samples.

(** C1 as stated fails. A row with plurality 6 makes the babyweight [to_csv]
    raise [IndexError]; a row without the plurality column makes it raise
    [KeyError]; a trip without one of its columns makes the taxi-fare
    [to_csv] raise [KeyError]. *)
Lemma to_csv_not_total :
  (∀ fs, (Babyweight.to_csv fs 1%positive
            (store (birth_dict true 6 1234567))).2 = Raised IndexError)
  ∧ (∀ fs, (Babyweight.to_csv fs 1%positive
              (store (delete "plurality" (birth_dict true 1 1234567)))).2
           = Raised (KeyError "plurality"))
  ∧ (∀ fs, (Taxifare.to_csv fs 1%positive
              (store (delete "pickuplat" trip))).2
           = Raised (KeyError "pickuplat")).
Proof. split_and!; intros fs; vm_compute; reflexivity. Qed.

Lemma to_csv_returns_witness :
  store (birth_dict true 2 1234567) !! 1%positive
    = Some (birth_dict true 2 1234567)
  ∧ (∃ lines,
       (Babyweight.to_csv float_str_7_5 1%positive
          (store (birth_dict true 2 1234567))).2 = Ok lines)
  ∧ store trip !! 1%positive = Some trip
  ∧ ∃ line, (Taxifare.to_csv float_str_7_5 1%positive (store trip)).2 = Ok line.
Proof.
  split_and!; [reflexivity| |reflexivity|].
  - destruct (to_csv_returns float_str_7_5
                (store (birth_dict true 2 1234567)) 1%positive
                (birth_dict true 2 1234567) eq_refl) as [Hbaby _].
    apply (Hbaby (VInt 2) 2); [reflexivity|reflexivity|lia].
  - destruct (to_csv_returns float_str_7_5 (store trip) 1%positive trip
                eq_refl) as [_ Htaxi].
    apply Htaxi. rewrite taxi_columns. repeat constructor; by eexists.
Defined.

(** C3 as stated fails: a birth with plurality 6 passes every filter of the
    query, and the indexing raises [IndexError] on its row. *)
Lemma indexing_fails_on_filtered_row :
  BigQuery.where_clause (birth (Some true) 6) = Some true
  ∧ sub_one (VInt 6) ≫= list_getitem Babyweight.PLURALITY_NAMES
    = Raised IndexError
  ∧ ∀ F fs, (Babyweight.to_csv fs 1%positive
               (store (BigQuery.rowdict F (birth (Some true) 6)))).2
            = Raised IndexError.
Proof. split_and!; [reflexivity|reflexivity|]. intros F fs. vm_compute. reflexivity. Qed.

Lemma indexing_succeeds_up_to_quintuplets_witness :
  BigQuery.where_clause (birth (Some true) 3) = Some true
  ∧ BigQuery.plurality (birth (Some true) 3) = Some 3
  ∧ 3 ≤ 5
  ∧ ∃ lines,
      (Babyweight.to_csv float_str_7_5 1%positive
         (store (BigQuery.rowdict fingerprint_stub (birth (Some true) 3)))).2
      = Ok lines.
Proof.
  split_and!; [reflexivity|reflexivity|lia|].
  apply (indexing_succeeds_up_to_quintuplets float_str_7_5 fingerprint_stub
           (birth (Some true) 3) 3
           (store (BigQuery.rowdict fingerprint_stub (birth (Some true) 3)))
           1%positive); [reflexivity|reflexivity|lia|reflexivity].
Defined.

(** C4 as stated fails: a row with every expected column and plurality 6
    yields no line at all. *)
Lemma babyweight_to_csv_no_lines_for_sextuplets :
  Forall (λ k, is_Some (birth_dict false 6 1234567 !! k)) Babyweight.CSV_COLUMNS
  ∧ ∀ fs, (Babyweight.to_csv fs 1%positive
             (store (birth_dict false 6 1234567))).2 = Raised IndexError.
Proof.
  split.
  - rewrite babyweight_columns. repeat constructor; by eexists.
  - intros fs. vm_compute. reflexivity.
Qed.

Lemma babyweight_to_csv_lines_witness :
  (Babyweight.to_csv float_str_7_5 1%positive
     (store (birth_dict true 2 1234567))).2
  = Ok ["7.5,Unknown,30,Multiple(2+),39"; "7.5,True,30,Twins(2),39"].
Proof.
  destruct (babyweight_to_csv_lines float_str_7_5
              (store (birth_dict true 2 1234567)) 1%positive
              (birth_dict true 2 1234567)
              (VFloat f7_5) (VBool true) (VInt 30) (VInt 39) 2)
    as (name & Hname & Hlines);
    [reflexivity|reflexivity|reflexivity|reflexivity|reflexivity|reflexivity
    |lia|].
  injection Hname as <-. exact Hlines.
Defined.

(** C5 as stated fails: for a boy born single, the with-ultrasound line of
    the Beam [to_csv] carries [True] for [is_male], and the with-ultrasound
    branch of the query carries [true]. *)
Lemma beam_is_male_differs_from_bigquery :
  BigQuery.where_clause (birth (Some true) 1) = Some true
  ∧ (∀ F fs,
       (Babyweight.to_csv fs 1%positive
          (store (BigQuery.rowdict F (birth (Some true) 1)))).2
       = Ok [join "," [fs f7_5; "Unknown"; "30"; "Single(1)"; "39"];
             join "," [fs f7_5; "True"; "30"; "Single(1)"; "39"]])
  ∧ (∀ F, BigQuery.out_is_male (BigQuery.ultrasound F (birth (Some true) 1))
          = Some "true")
  ∧ "True" ≠ "true".
Proof.
  split_and!; [reflexivity| |reflexivity|discriminate].
  intros F fs. vm_compute. reflexivity.
Qed.

Lemma beam_agrees_with_bigquery_witness :
  BigQuery.where_clause (birth (Some false) 4) = Some true
  ∧ (Babyweight.to_csv float_str_7_5 1%positive
       (store (BigQuery.rowdict fingerprint_stub (birth (Some false) 4)))).2
    = Ok ["7.5,Unknown,30,Multiple(2+),39"; "7.5,False,30,Quadruplets(4),39"].
Proof.
  split; [reflexivity|].
  destruct (beam_agrees_with_bigquery float_str_7_5 fingerprint_stub
              (birth (Some false) 4) 4
              (store (BigQuery.rowdict fingerprint_stub (birth (Some false) 4)))
              1%positive)
    as (pl_no & pl_w & Hno & _ & Hw & Hlines & _);
    [reflexivity|reflexivity|lia|reflexivity|].
  injection Hno as <-. injection Hw as <-. exact Hlines.
Defined.

Lemma taxi_to_csv_line_witness :
  Taxifare.to_csv float_str_7_5 1%positive (store trip)
  = (store trip, Ok "7.5,3,17,-74,41,-73,40").
Proof.
  apply (taxi_to_csv_line float_str_7_5 (store trip) 1%positive trip
           (VFloat f7_5) (VInt 3) (VInt 17) (VInt (-74)) (VInt 41)
           (VInt (-73)) (VInt 40)); reflexivity.
Defined.

Lemma to_csv_leaves_store_witness :
  (Babyweight.to_csv float_str_7_5 1%positive
     (store (birth_dict true 6 1234567))).1 !! 1%positive
  = Some (birth_dict true 6 1234567).
Proof.
  destruct (to_csv_leaves_store float_str_7_5
              (store (birth_dict true 6 1234567))
              1%positive (birth_dict true 6 1234567)) as [[Hrow _] _];
    [reflexivity|exact Hrow].
Defined.

Lemma to_csv_deterministic_witness :
  (Babyweight.to_csv float_str_7_5 1%positive
     (store (birth_dict true 2 1234567))).2
  = (Babyweight.to_csv float_str_7_5 2%positive
       (<[2%positive := birth_dict true 2 1234567]> (store trip))).2.
Proof.
  destruct (to_csv_deterministic float_str_7_5
              (store (birth_dict true 2 1234567)) 1%positive
              (<[2%positive := birth_dict true 2 1234567]> (store trip))
              2%positive (birth_dict true 2 1234567)) as [Hsame _];
    [reflexivity|reflexivity|exact Hsame].
Defined.

End RowTransformInstances.

(* ===================================================================== *)
(** * The split predicates                                                *)
(* ===================================================================== *)

Section Splits.
Import BigQuery.

Ltac bool_cases :=
  repeat match goal with
         | |- context [?a <? ?b] => destruct (Z.ltb_spec a b)
         | |- context [?a <=? ?b] => destruct (Z.leb_spec a b)
         | |- context [?a =? ?b] => destruct (Z.eqb_spec a b)
         end;
  cbn; try reflexivity; try lia.

Lemma train_where (hashmonth : Z) :
  is_true (selquery_where "train" hashmonth) = (Z.rem hashmonth 100 <? 80).
Proof. reflexivity. Qed.

Lemma eval_where (hashmonth : Z) :
  is_true (selquery_where "eval" hashmonth)
  = (80 <=? Z.rem hashmonth 100) && (Z.rem hashmonth 100 <? 90).
Proof. reflexivity. Qed.

(** The three ranges of [create_query], as conditions on the remainder. *)
Lemma subsample_eq :
  Taxifare.subsample "TRAIN"
  = Some (λ N f, m ← MOD (Z.abs f) (N * 100); m' ← MOD (Z.abs f) (N * 100);
                 Some ((N * 0 <=? m) && (m' <? N * 70)))
  ∧ Taxifare.subsample "VALID"
    = Some (λ N f, m ← MOD (Z.abs f) (N * 100); m' ← MOD (Z.abs f) (N * 100);
                   Some ((N * 70 <=? m) && (m' <? N * 85)))
  ∧ Taxifare.subsample "TEST"
    = Some (λ N f, m ← MOD (Z.abs f) (N * 100); m' ← MOD (Z.abs f) (N * 100);
                   Some ((N * 85 <=? m) && (m' <? N * 100))).
Proof. split_and!; reflexivity. Qed.

(** C7. The split predicates are pairwise disjoint. For every [hashmonth] the
    train condition (remainder below 80) and the eval condition (remainder
    from 80 and below 90) are never both true, and a row whose remainder is
    90 or more passes neither; for every [EVERY_N] and every fingerprint
    the TRAIN, VALID and TEST conditions of [create_query] are never true
    two at a time. *)
Theorem splits_disjoint (hashmonth EVERY_N f : Z) :
  let train := is_true (selquery_where "train" hashmonth) in
  let eval := is_true (selquery_where "eval" hashmonth) in
  train && eval = false
  ∧ (90 <=? Z.rem hashmonth 100) && (train || eval) = false
  ∧ Taxifare.in_range "TRAIN" EVERY_N f && Taxifare.in_range "VALID" EVERY_N f
    = false
  ∧ Taxifare.in_range "VALID" EVERY_N f && Taxifare.in_range "TEST" EVERY_N f
    = false
  ∧ Taxifare.in_range "TRAIN" EVERY_N f && Taxifare.in_range "TEST" EVERY_N f
    = false.
Proof.
  intros train eval. unfold train, eval. rewrite train_where, eval_where.
  destruct subsample_eq as (HT & HV & HE).
  unfold Taxifare.in_range. rewrite HT, HV, HE. unfold MOD.
  split_and!.
  - bool_cases.
  - bool_cases.
  - destruct (Z.eqb_spec (EVERY_N * 100) 0); cbn; try reflexivity; bool_cases.
  - destruct (Z.eqb_spec (EVERY_N * 100) 0); cbn; try reflexivity; bool_cases.
  - destruct (Z.eqb_spec (EVERY_N * 100) 0); cbn; try reflexivity; bool_cases.
Qed.

(** A row kept for a phase is in the range of that phase, so no row is kept
    for two phases. *)
Lemma keeps_in_range (phase : string) (EVERY_N f : Z) :
  Taxifare.keeps phase EVERY_N f = true → Taxifare.in_range phase EVERY_N f = true.
Proof.
  unfold Taxifare.keeps, Taxifare.in_range.
  destruct (Taxifare.subsample phase) as [cond|]; [|done].
  by destruct (Taxifare.basequery_sample EVERY_N f) as [[]|],
              (cond EVERY_N f) as [[]|].
Qed.

End Splits.

(* ===================================================================== *)
(** * The cells: which failures surface                                   *)
(* ===================================================================== *)

Section CellLemmas.
Import Cloud.

Lemma cell_bind_run {A B} (m : Cell A) (f : A → Cell B) (w : world) :
  (m ≫= f) w =
  match m w with
  | (t, Ok a) => ((t ++ (f a w).1)%list, (f a w).2)
  | (t, Raised e) => (t, Raised e)
  end.
Proof.
  unfold mbind, Cell_bind. destruct (m w) as [t [a|e]]; [|done].
  by destruct (f a w).
Qed.

Lemma silent_ret {A} (a : A) : silent (mret a : Cell A).
Proof. intros w. split; [by exists a|]. intros c Hc. by apply elem_of_nil in Hc. Qed.

Lemma silent_print line : silent (print line).
Proof.
  intros w. split; [by exists tt|]. intros c Hc.
  apply list_elem_of_singleton in Hc. discriminate.
Qed.

Lemma only_guarded_invoke c : guarded c = true → only_guarded (invoke c).
Proof.
  intros Hc w c' Hin. apply list_elem_of_singleton in Hin. by injection Hin as ->.
Qed.

Lemma only_guarded_silent {A} (P : Cell A) : silent P → only_guarded P.
Proof. intros HP w c Hin. by destruct (HP w) as [_ []%(λ H, H c)]. Qed.

Lemma only_guarded_bind {A B} (m : Cell A) (f : A → Cell B) :
  only_guarded m → (∀ a, only_guarded (f a)) → only_guarded (m ≫= f).
Proof.
  intros Hm Hf w c. rewrite cell_bind_run.
  specialize (Hm w c). destruct (m w) as [t [a|e]]; cbn [fst] in *; [|done].
  intros [?|?]%elem_of_app; [auto|]. by apply (Hf a w).
Qed.

(** An event that stands in a trace at some place is in the trace. *)
Lemma elem_of_middle (t pre post : list event) (ev : event) :
  t = (pre ++ ev :: post)%list → ev ∈ t.
Proof. intros ->. apply elem_of_app. right. apply list_elem_of_here. Qed.

(** A trace of one event has that event at its one place. *)
Lemma singleton_middle (ev ev' : event) (pre post : list event) :
  [ev] = (pre ++ ev' :: post)%list → pre = [] ∧ ev' = ev ∧ post = [].
Proof.
  destruct pre as [|x pre]; cbn.
  - by intros [= -> <-].
  - intros [= _ H]. by destruct pre.
Qed.

Lemma surfaces_silent {A} (P : Cell A) : silent P → surfaces P.
Proof.
  intros HP w. destruct (HP w) as [[a Ha] Hno]. split_and!.
  - intros pre c post e Ht%elem_of_middle. by destruct (Hno c).
  - intros e He. congruence.
  - eauto.
Qed.

Lemma surfaces_invoke c : guarded c = false → surfaces (invoke c).
Proof.
  intros Hc w. unfold invoke. cbn [fst snd]. split_and!.
  - intros pre c' post e (_ & [= ->] & ->)%singleton_middle _ Hw.
    by rewrite Hw.
  - intros e He. exists [], c. split_and!; [done..|].
    by destruct (w c) as [e'|]; [injection He as ->|].
  - intros Hall. exists tt. by rewrite (Hall c (list_elem_of_here _ _) Hc).
Qed.

Lemma surfaces_invoke_ignore_errors c :
  guarded c = true → surfaces (invoke_ignore_errors c).
Proof.
  intros Hc w. unfold invoke_ignore_errors. cbn [fst snd]. split_and!.
  - intros pre c' post e (_ & [= ->] & ->)%singleton_middle Hg. congruence.
  - done.
  - by exists tt.
Qed.

Lemma surfaces_bind {A B} (m : Cell A) (f : A → Cell B) :
  surfaces m → (∀ a, surfaces (f a)) → surfaces (m ≫= f).
Proof.
  intros Hm Hf w. rewrite cell_bind_run.
  destruct (Hm w) as (Hm1 & Hm2 & Hm3).
  destruct (m w) as [t [a|e]] eqn:Hmw; cbn [fst snd] in *.
  - destruct (Hf a w) as (Hf1 & Hf2 & Hf3). split_and!.
    + intros pre c post e Ht Hg Hw.
      apply List.app_eq_app in Ht as [l [[Ht Hl]|[Hpre Hl]]].
      * destruct l as [|x l]; cbn in Hl.
        -- by apply (Hf1 [] c post e).
        -- injection Hl as <- ->.
           by destruct (Hm1 pre c l e Ht Hg Hw) as [_ [=]].
      * by apply (Hf1 l c post e).
    + intros e (pre & c & Ht & Hg & Hw)%Hf2. exists (t ++ pre)%list, c.
      split_and!; [|done..]. by rewrite Ht, (assoc_L (++)).
    + intros Hall. apply Hf3. intros c Hin. apply Hall, elem_of_app. by right.
  - split_and!.
    + intros pre c post e0 Ht Hg Hw.
      by destruct (Hm1 pre c post e0 Ht Hg Hw) as [-> [= ->]].
    + intros e0 [= <-]. by apply Hm2.
    + intros Hall. destruct (Hm3 Hall) as [a Ha]. done.
Qed.

Lemma surfaces_try_except {A} (body handler : Cell A) :
  only_guarded body → silent handler → surfaces (try_except body handler).
Proof.
  intros Hb Hh w. unfold try_except.
  specialize (Hb w). destruct (Hh w) as [[a Ha] Hno].
  destruct (body w) as [t [a'|e']]; cbn [fst snd] in *.
  - split_and!; [|done|by eauto].
    intros pre c post e Hin%elem_of_middle Hg. specialize (Hb c Hin). congruence.
  - destruct (handler w) as [t' r]; cbn [fst snd] in *. subst r. split_and!.
    + intros pre c post e [Hin|Hin]%elem_of_middle%elem_of_app Hg;
        [|by destruct (Hno c)].
      specialize (Hb c Hin). congruence.
    + done.
    + by eauto.
Qed.

Lemma surfaces_mapM {A} (body : A → Cell unit) (xs : list A) :
  (∀ x, surfaces (body x)) → surfaces (mapM body xs).
Proof.
  intros Hbody. induction xs as [|x xs IH].
  - apply surfaces_silent, silent_ret.
  - cbn [mapM]. apply surfaces_bind; [done|]. intros [].
    apply surfaces_bind; [exact IH|]. intros l.
    apply surfaces_silent, silent_ret.
Qed.

Lemma surfaces_for_each {A} (xs : list A) (body : A → Cell unit) :
  (∀ x, surfaces (body x)) → surfaces (for_each xs body).
Proof.
  intros Hbody. unfold for_each. apply surfaces_bind.
  - by apply surfaces_mapM.
  - intros _. apply surfaces_silent, silent_ret.
Qed.

(** The predicate has teeth: a handler around an unguarded call that prints
    and tries again, or that prints and goes on, does not satisfy it. *)
Lemma surfaces_rules_out_handlers (c : call) :
  guarded c = false →
  ¬ surfaces (try_except (invoke c) (_ ← print "again"; invoke c))
  ∧ ¬ surfaces (try_except (invoke c) (print "failed")).
Proof.
  intros Hc. split; intros H;
    destruct (H (λ _, Some ValueError)) as (Ha & _).
  - by destruct (Ha [] c [Printed "again"; Called c] ValueError) as [[=] _].
  - by destruct (Ha [] c [Printed "failed"] ValueError) as [[=] _].
Qed.

Create HintDb cells discriminated.
Hint Resolve silent_ret silent_print only_guarded_invoke only_guarded_silent
  only_guarded_bind surfaces_silent surfaces_invoke surfaces_invoke_ignore_errors
  surfaces_bind surfaces_try_except surfaces_for_each : cells.

Ltac cells :=
  cbv zeta;
  repeat first
    [ apply surfaces_bind | apply surfaces_for_each | apply surfaces_try_except
    | apply only_guarded_bind
    | lazymatch goal with |- ∀ _, _ => intro end ];
  eauto with cells.

(** ** Shell scripts *)

Lemma exec_status_last (s : Shell.sh) (w : Shell.world) :
  Shell.status_from_command s = true → (Shell.exec s w).2 ≠ 0 →
  ∃ pre c, (Shell.exec s w).1 = (pre ++ [c])%list ∧ w c = (Shell.exec s w).2.
Proof.
  induction s as [argv|subst _ argv|c IH file|var word|var word|var subst IH
                 |l _ r IH|c _|l _ r IH|cond _ body IH|first _ rest IH];
    cbn [Shell.exec Shell.status_from_command fst snd]; intros Hok Hst.
  - by exists [], argv.
  - by exists (Shell.exec subst w).1, argv.
  - by apply IH.
  - done.
  - done.
  - by apply IH.
  - destruct (IH Hok Hst) as (pre & c & Ht & Hc).
    exists ((Shell.exec l w).1 ++ pre)%list, c.
    by rewrite Ht, (assoc_L (++)).
  - done.
  - destruct ((Shell.exec l w).2 =? 0); cbn [fst snd] in *; [done|].
    destruct (IH Hok Hst) as (pre & c & Ht & Hc).
    exists ((Shell.exec l w).1 ++ pre)%list, c.
    by rewrite Ht, (assoc_L (++)).
  - destruct ((Shell.exec cond w).2 =? 0); cbn [fst snd] in *; [|done].
    destruct (IH Hok Hst) as (pre & c & Ht & Hc).
    exists ((Shell.exec cond w).1 ++ pre)%list, c.
    by rewrite Ht, (assoc_L (++)).
  - destruct (IH Hok Hst) as (pre & c & Ht & Hc).
    exists ((Shell.exec first w).1 ++ pre)%list, c.
    by rewrite Ht, (assoc_L (++)).
Qed.

Lemma exec_last_command (s : Shell.sh) (w : Shell.world) c :
  Shell.last_command s = Some c → (Shell.exec s w).2 = w c.
Proof.
  induction s; cbn [Shell.exec Shell.last_command fst snd]; try done.
  - by intros [= ->].
  - by intros [= ->].
Qed.

Lemma exec_sublist (s : Shell.sh) (w : Shell.world) :
  (Shell.exec s w).1 `sublist_of` Shell.commands s.
Proof.
  induction s as [argv|subst IH argv|c IH file|var word|var word|var subst IH
                 |l IHl r IHr|c IH|l IHl r IHr|cond IHl body IHr
                 |first IHl rest IHr];
    cbn [Shell.exec Shell.commands fst snd]; try done.
  - by apply sublist_app.
  - by apply sublist_app.
  - destruct ((Shell.exec l w).2 =? 0); cbn [fst];
      [by apply sublist_inserts_r|by apply sublist_app].
  - destruct ((Shell.exec cond w).2 =? 0); cbn [fst];
      [by apply sublist_app|by apply sublist_inserts_r].
  - by apply sublist_app.
Qed.

Lemma surfaces_last_intro (s : Shell.sh) :
  Shell.status_from_command s = true → NoDup (Shell.commands s) →
  Shell.surfaces_last s.
Proof.
  intros Hok Hnd w. split_and!.
  - by apply exec_status_last.
  - intros c. apply exec_last_command.
  - eapply sublist_NoDup; [exact Hnd|apply exec_sublist].
Qed.

Ltac shell_cell :=
  apply surfaces_last_intro;
  [reflexivity|apply (bool_decide_unpack _); vm_compute; reflexivity].

(** C2 (amended). In every Python cell of the three notebooks that runs as
    it stands, and in [preprocess] in either mode, a failure of an outside
    call surfaces unchanged and at once, with no handler of the notebook in
    between and nothing tried again, except at the three guarded calls: the
    removal of the old output directory ([shutil.rmtree] with
    [ignore_errors=True], [gsutil rm] under [try]/[except: pass]) and the
    creation of a dataset (under a [try]/[except] that prints that it
    exists). In every shell cell a nonzero exit status of the cell is the
    unchanged status of the last command it started, a cell that ends with
    a plain command has the status of that command, and no command is
    started twice: the status of a command that is not the last (no script
    sets [-e] or [pipefail]) and the status that an [if], a [||] or a [!]
    tests do not surface. The last conjunct names, cell by cell, the command
    whose status is the status of the cell; the six cells without one end
    with an [if] or a [||]. *)
Theorem failures_surface_unless_guarded
    (float_str : spec_float → string)
    (BUCKET PROJECT now client_project query tf_version : string) :
  Forall surfaces
    (Notebooks.python_cells float_str BUCKET PROJECT now client_project query
       tf_version)
  ∧ (∀ in_test_mode,
       surfaces (Babyweight.preprocess float_str BUCKET PROJECT now
                   in_test_mode))
  ∧ Forall Shell.surfaces_last Notebooks.shell_cells
  ∧ map Shell.last_command Notebooks.shell_cells
    = [ None;
        None;
        Some ["gsutil"; "ls"; "gs://$BUCKET/babyweight/preproc/*-00000*"];
        Some ["gsutil"; "ls";
              "gs://$BUCKET/babyweight/bq_data/*000000000000*"];
        None;
        Some ["gcloud"; "config"; "set"; "ml_engine/local_python";
              "`which python`"];
        None;
        None;
        Some ["gsutil"; "ls"; "-l"; "gs://$BUCKET/taxifare/ch4/taxi_preproc/"];
        Some ["head"];
        Some ["gsutil"; "cat";
              "gs://$BUCKET/taxifare/ch4/taxi_preproc/VALID.csv-00000-of-*"];
        Some ["cp"; "-r"; "../../03_model_performance/taxifaremodel/*";
              "$MODELDIR"];
        Some ["grep"; "-A"; "15"; "feature_cols ="; "taxifaremodel/model.py"];
        Some ["grep"; "-A"; "5"; "add_engineered_features(";
              "taxifaremodel/model.py"];
        Some ["python"; "-m"; "taxifaremodel.task";
              "--train_data_path=${PWD}/sample/train.csv";
              "--eval_data_path=${PWD}/sample/valid.csv";
              "--output_dir=${PWD}/taxi_trained";
              "--train_steps=10";
              "--job-dir=/tmp"];
        Some ["ls"; "-R"; "taxi_trained/export"];
        Some ["saved_model_cli"; "show"; "--dir";
              "${PWD}/taxi_trained/export/exporter/${model_dir}"; "--all"];
        Some ["gcloud"; "ml-engine"; "local"; "predict";
              "--model-dir=${PWD}/taxi_trained/export/exporter/${model_dir}";
              "--json-instances=/tmp/test.json"];
        Some ["gcloud"; "ml-engine"; "jobs"; "submit"; "training"; "$JOBNAME";
              "--region=$REGION";
              "--module-name=taxifaremodel.task";
              "--package-path=${PWD}/taxifaremodel";
              "--job-dir=$OUTDIR";
              "--staging-bucket=gs://$BUCKET";
              "--scale-tier=BASIC";
              "--runtime-version=$TFVERSION";
              "--";
              "--train_data_path=gs://${BUCKET}/taxifare/ch4/taxi_preproc/TRAIN*";
              "--eval_data_path=gs://${BUCKET}/taxifare/ch4/taxi_preproc/VALID*";
              "--train_steps=5000";
              "--output_dir=$OUTDIR"];
        Some ["tail"; "-1"];
        Some ["saved_model_cli"; "show"; "--dir"; "${model_dir}"; "--all"];
        Some ["gcloud"; "ml-engine"; "local"; "predict";
              "--model-dir=${model_dir}";
              "--json-instances=/tmp/test.json"];
        None;
        Some ["gcloud"; "config"; "set"; "compute/region"; "$REGION"];
        Some ["bq"; "--location=US"; "mk"; "-d"; "demo"] ].
Proof.
  split_and!.
  - unfold Notebooks.python_cells, Notebooks.babyweight_cells,
      Notebooks.taxifare_cells, Notebooks.bqml_cells.
    cbn [app]. repeat apply Forall_cons_2; [..|apply Forall_nil_2].
    all: unfold Notebooks.imports_cell, Notebooks.examine_cell,
      Notebooks.preprocess_cell, Notebooks.writefile_cell,
      Notebooks.load_ext_cell, Notebooks.bigquery_cell,
      Notebooks.training_info_cell, Babyweight.preprocess,
      BigQueryPreprocessing.create_dataset_cell,
      BigQueryPreprocessing.load_tables_cell,
      BigQueryPreprocessing.export_cell, Taxifare.create_dataset_cell.
    all: cells.
  - intros in_test_mode. unfold Babyweight.preprocess.
    destruct in_test_mode; cells.
  - unfold Notebooks.shell_cells, Notebooks.babyweight_shell_cells,
      Notebooks.taxifare_shell_cells, Notebooks.bqml_shell_cells.
    cbn [app]. repeat apply Forall_cons_2; [..|apply Forall_nil_2].
    all: shell_cell.
  - reflexivity.
Qed.

(** ** The pipeline of [preprocess] *)

Lemma rev_app_append (a b acc : string) :
  String.rev_app (a +:+ b) acc = String.rev_app b (String.rev_app a acc).
Proof. revert acc. induction a as [|c a IH]; intros acc; [done|]. apply IH. Qed.

(** Joining onto a directory that ends with a slash adds no second one. *)
Lemma os_path_join_slash (a b : string) :
  (∀ t, b ≠ String "/" t) →
  os_path_join (a +:+ "/") b = (a +:+ "/") +:+ b.
Proof.
  intros Hb. unfold os_path_join, String.rev. rewrite rev_app_append.
  cbn [String.rev_app].
  destruct b as [|c t]; [done|].
  destruct (Ascii.eqb_spec c "/") as [->|Hc]; [by destruct (Hb t)|].
  destruct c as [[] [] [] [] [] [] [] []]; try done.
Qed.

Lemma append_assoc (a b c : string) : (a +:+ b) +:+ c = a +:+ b +:+ c.
Proof.
  induction a as [|x a IH]; [done|].
  change (String x ((a +:+ b) +:+ c) = String x (a +:+ b +:+ c)).
  by rewrite IH.
Qed.

Lemma cloud_output_dir (BUCKET step : string) :
  (∀ t, step ≠ String "/" t) →
  os_path_join ("gs://" +:+ BUCKET +:+ "/babyweight/preproc/") step
  = ("gs://" +:+ BUCKET +:+ "/babyweight/preproc/") +:+ step.
Proof.
  intros Hstep.
  assert ("gs://" +:+ BUCKET +:+ "/babyweight/preproc/"
          = ("gs://" +:+ BUCKET +:+ "/babyweight/preproc") +:+ "/") as ->.
  { by rewrite !append_assoc. }
  by apply os_path_join_slash.
Qed.

Ltac run_preprocess :=
  cbv [Babyweight.preprocess Babyweight.before_run
       Babyweight.preprocess_pipeline Babyweight.apply_step Beam.pipe foldl
       for_each mapM app map all_return forallb andb
       mbind Cell_bind print invoke invoke_ignore_errors try_except mret
       Cell_ret].

Ltac first_call w :=
  lazymatch goal with
  | |- context [match w ?c with _ => _ end] => destruct (w c) eqn:?
  end.

(** C6. For each step of [train] and [eval], in that order, the pipeline that
    [preprocess] builds has exactly three transforms in a line: a read from
    BigQuery with the step's query, a flat-map of [to_csv] over what was
    read, and a write of the lines to the file [<step>.csv] of the output
    directory, which is [./preproc/<step>.csv] in test mode and
    [gs://<BUCKET>/babyweight/preproc/<step>.csv] otherwise; it has no other
    transform. That pipeline is the only one [preprocess] hands to a runner,
    and it hands it over once, exactly when every call before [p.run()]
    whose failure ends [preprocess] has returned. *)
Theorem preprocess_pipeline_linear
    (float_str : spec_float → string) (BUCKET PROJECT now : string)
    (in_test_mode : bool) (w : world) :
  let OUTPUT_DIR :=
    if in_test_mode then "./preproc"
    else "gs://" +:+ BUCKET +:+ "/babyweight/preproc/" in
  let query :=
    if in_test_mode then Babyweight.query +:+ " LIMIT 100"
    else Babyweight.query in
  let dir :=
    if in_test_mode then "./preproc/"
    else "gs://" +:+ BUCKET +:+ "/babyweight/preproc/" in
  let p :=
    [ {| Beam.label := "train_read";
         Beam.transform :=
           Beam.Read_BigQuerySource
             ("SELECT * FROM (" +:+ query +:+ ") WHERE MOD(hashmonth, 100) < 80")
             true;
         Beam.input := None |};
      {| Beam.label := "train_csv";
         Beam.transform := Beam.FlatMap (Babyweight.to_csv float_str);
         Beam.input := Some "train_read" |};
      {| Beam.label := "train_out";
         Beam.transform := Beam.Write_WriteToText (dir +:+ "train.csv");
         Beam.input := Some "train_csv" |};
      {| Beam.label := "eval_read";
         Beam.transform :=
           Beam.Read_BigQuerySource
             ("SELECT * FROM (" +:+ query
                +:+ ") WHERE MOD(hashmonth, 100) >= 80 AND MOD(hashmonth, 100) < 90")
             true;
         Beam.input := None |};
      {| Beam.label := "eval_csv";
         Beam.transform := Beam.FlatMap (Babyweight.to_csv float_str);
         Beam.input := Some "eval_read" |};
      {| Beam.label := "eval_out";
         Beam.transform := Beam.Write_WriteToText (dir +:+ "eval.csv");
         Beam.input := Some "eval_csv" |} ] in
  Babyweight.preprocess_pipeline float_str OUTPUT_DIR query = p
  ∧ pipelines_run
      (Babyweight.preprocess float_str BUCKET PROJECT now in_test_mode w).1
    = if all_return w
           (Babyweight.before_run float_str BUCKET PROJECT now in_test_mode)
      then [p] else [].
Proof.
  cbv zeta.
  assert (os_path_join
            (if in_test_mode then "./preproc"
             else "gs://" +:+ BUCKET +:+ "/babyweight/preproc/") "train.csv"
          = (if in_test_mode then "./preproc/"
             else "gs://" +:+ BUCKET +:+ "/babyweight/preproc/") +:+ "train.csv")
    as Htrain.
  { destruct in_test_mode; [reflexivity|]. by apply cloud_output_dir. }
  assert (os_path_join
            (if in_test_mode then "./preproc"
             else "gs://" +:+ BUCKET +:+ "/babyweight/preproc/") "eval.csv"
          = (if in_test_mode then "./preproc/"
             else "gs://" +:+ BUCKET +:+ "/babyweight/preproc/") +:+ "eval.csv")
    as Heval.
  { destruct in_test_mode; [reflexivity|]. by apply cloud_output_dir. }
  split.
  - cbv [Babyweight.preprocess_pipeline Babyweight.apply_step Beam.pipe foldl
         app].
    change ("train" +:+ ".csv") with "train.csv".
    change ("eval" +:+ ".csv") with "eval.csv".
    rewrite Htrain, Heval. reflexivity.
  - rewrite <- Htrain, <- Heval. clear Htrain Heval.
    destruct in_test_mode; run_preprocess; repeat first_call w;
      reflexivity.
Qed.

End CellLemmas.

(* ===================================================================== *)
(** * The cells at the sample worlds                                      *)
(* ===================================================================== *)

Section CellInstances.
Import Cloud Samples.

(** C2 as stated fails.
    - On the cloud path [gsutil rm] exits with status 1,
      [subprocess.check_call] raises [CalledProcessError], and [preprocess]
      goes on to build and run the pipeline and returns: the [except: pass]
      has swallowed the error.
    - In test mode [shutil.rmtree] cannot remove the directory, and
      [preprocess] goes on and returns: [ignore_errors=True] has suppressed
      the error.
    - The dataset cell turns the exception of [create_dataset] into a
      printed line.
    - In the shell cell that submits the training job, [gsutil rm] exits
      with status 1 and the script goes on and ends with status 0.
    - In the cell that shows the head of the training file, [gsutil cat] at
      the left of the pipe exits with status 1 and the cell ends with
      status 0.
    - In the cell that configures [gcloud], [which python] in the command
      substitution exits with status 1 and the cell ends with status 0.
    - In the first cell, the status 1 of [grep] decides that [pip install]
      runs, and in the cell that makes the bucket it decides that
      [gsutil mb] runs; both cells end with status 0. *)
Lemma removal_failure_is_swallowed :
  nothing_to_remove
    (subprocess_check_call
       ["gsutil"; "-m"; "rm"; "-r";
        "gs://cloud-training-bucket/babyweight/preproc/"])
  = Some (CalledProcessError 1)
  ∧ (∀ fs now,
       Babyweight.preprocess fs "cloud-training-bucket" "cloud-training-demos"
         now false nothing_to_remove
       = ((Printed ("Launching Dataflow job preprocess-babyweight-features-"
                      +:+ now +:+ " ... hang on")
           :: Called (subprocess_check_call
                        ["gsutil"; "-m"; "rm"; "-r";
                         "gs://cloud-training-bucket/babyweight/preproc/"])
           :: map Called
                (Babyweight.before_run fs "cloud-training-bucket"
                   "cloud-training-demos" now false)
           ++ [Called (pipeline_run "DataflowRunner"
                         (Babyweight.preprocess_pipeline fs
                            "gs://cloud-training-bucket/babyweight/preproc/"
                            Babyweight.query))])%list,
          Ok tt))
  ∧ cannot_remove (shutil_rmtree "./preproc") = Some (OSError 13)
  ∧ (∀ fs now,
       Babyweight.preprocess fs "cloud-training-bucket" "cloud-training-demos"
         now true cannot_remove
       = ((Printed "Launching local job ... hang on"
           :: Called (shutil_rmtree "./preproc")
           :: map Called
                (Babyweight.before_run fs "cloud-training-bucket"
                   "cloud-training-demos" now true)
           ++ [Called (pipeline_run "DirectRunner"
                         (Babyweight.preprocess_pipeline fs "./preproc"
                            (Babyweight.query +:+ " LIMIT 100")));
               Called job_wait_until_finish;
               Printed "Done!"])%list,
          Ok tt))
  ∧ dataset_exists (client_create_dataset "demo.temp_babyweight_dataset")
    = Some (GoogleAPIError 409)
  ∧ BigQueryPreprocessing.create_dataset_cell "demo" dataset_exists
    = ([Called (python_import "google.cloud.bigquery");
        Called (bigquery_Client None);
        Called (Dataset_from_string "demo.temp_babyweight_dataset");
        Called (client_create_dataset "demo.temp_babyweight_dataset");
        Printed "Dataset demo.temp_babyweight_dataset already exists"],
       Ok tt)
  ∧ nothing_to_remove_shell ["gsutil"; "-m"; "rm"; "-rf"; "$OUTDIR"] = 1
  ∧ Shell.exec Notebooks.submit_training nothing_to_remove_shell
    = ([ ["date"; "-u"; "+%y%m%d_%H%M%S"];
         ["echo"; "$OUTDIR"; "$REGION"; "$JOBNAME"];
         ["gsutil"; "-m"; "rm"; "-rf"; "$OUTDIR"];
         ["gcloud"; "ml-engine"; "jobs"; "submit"; "training"; "$JOBNAME";
          "--region=$REGION";
          "--module-name=taxifaremodel.task";
          "--package-path=${PWD}/taxifaremodel";
          "--job-dir=$OUTDIR";
          "--staging-bucket=gs://$BUCKET";
          "--scale-tier=BASIC";
          "--runtime-version=$TFVERSION";
          "--";
          "--train_data_path=gs://${BUCKET}/taxifare/ch4/taxi_preproc/TRAIN*";
          "--eval_data_path=gs://${BUCKET}/taxifare/ch4/taxi_preproc/VALID*";
          "--train_steps=5000";
          "--output_dir=$OUTDIR"] ], 0)
  ∧ Shell.exec Notebooks.head_train cannot_read_shell
    = ([ ["gsutil"; "cat";
          "gs://$BUCKET/taxifare/ch4/taxi_preproc/TRAIN.csv-00000-of-*"];
         ["head"] ], 0)
  ∧ Shell.exec Notebooks.gcloud_config no_python_shell
    = ([ ["gcloud"; "config"; "set"; "project"; "$PROJECT"];
         ["gcloud"; "config"; "set"; "compute/region"; "$REGION"];
         ["which"; "python"];
         ["gcloud"; "config"; "set"; "ml_engine/local_python";
          "`which python`"] ], 0)
  ∧ Shell.exec Notebooks.pip_apache_beam no_match_shell
    = ([ ["pip"; "freeze"]; ["grep"; "apache-beam"];
         ["sudo"; "pip"; "install"; "apache-beam[gcp]==2.12.0"] ], 0)
  ∧ Shell.exec Notebooks.make_bucket no_match_shell
    = ([ ["gsutil"; "ls"]; ["grep"; "-q"; "gs://${BUCKET}/"];
         ["gsutil"; "mb"; "-l"; "${REGION}"; "gs://${BUCKET}"] ], 0).
Proof.
  split_and!;
    [reflexivity| |reflexivity| |reflexivity|reflexivity|reflexivity
    |reflexivity|reflexivity|reflexivity|reflexivity|reflexivity].
  - intros fs now.
    cbv [Babyweight.preprocess Babyweight.before_run
         Babyweight.preprocess_pipeline Babyweight.apply_step Beam.pipe foldl
         for_each mapM app map mbind Cell_bind print invoke try_except mret
         Cell_ret nothing_to_remove].
    reflexivity.
  - intros fs now.
    cbv [Babyweight.preprocess Babyweight.before_run
         Babyweight.preprocess_pipeline Babyweight.apply_step Beam.pipe foldl
         for_each mapM app map mbind Cell_bind print invoke
         invoke_ignore_errors mret Cell_ret cannot_remove].
    reflexivity.
Qed.

Lemma failures_surface_unless_guarded_witness :
  (Babyweight.preprocess float_str_7_5 "cloud-training-bucket"
     "cloud-training-demos" "191231-235959" false calm).2 = Ok tt
  ∧ (Shell.exec Notebooks.make_bucket calm_shell).2 = 0.
Proof.
  destruct (failures_surface_unless_guarded float_str_7_5
              "cloud-training-bucket" "cloud-training-demos" "191231-235959"
              "demo" Babyweight.query "1.14") as (_ & Hpre & Hsh).
  split.
  - destruct (Hpre false calm) as (_ & _ & Hcalm).
    destruct Hcalm as [[] Hok]; [reflexivity|exact Hok].
  - reflexivity.
Defined.

(** The write paths of the pipeline at the notebook's own bucket, and the
    pipeline as handed over when every call returns. *)
Lemma preprocess_pipeline_linear_witness :
  omap (λ a, match Beam.transform a with
             | Beam.Write_WriteToText path => Some path
             | _ => None
             end)
    (Babyweight.preprocess_pipeline float_str_7_5
       "gs://cloud-training-bucket/babyweight/preproc/" Babyweight.query)
  = [ "gs://cloud-training-bucket/babyweight/preproc/train.csv";
      "gs://cloud-training-bucket/babyweight/preproc/eval.csv" ]
  ∧ omap (λ a, match Beam.transform a with
               | Beam.Write_WriteToText path => Some path
               | _ => None
               end)
      (Babyweight.preprocess_pipeline float_str_7_5 "./preproc"
         (Babyweight.query +:+ " LIMIT 100"))
    = [ "./preproc/train.csv"; "./preproc/eval.csv" ]
  ∧ pipelines_run
      (Babyweight.preprocess float_str_7_5 "cloud-training-bucket"
         "cloud-training-demos" "191231-235959" false calm).1
    = [ Babyweight.preprocess_pipeline float_str_7_5
          "gs://cloud-training-bucket/babyweight/preproc/" Babyweight.query ].
Proof.
  destruct (preprocess_pipeline_linear float_str_7_5 "cloud-training-bucket"
              "cloud-training-demos" "191231-235959" false calm)
    as [Hcloud Hrun].
  destruct (preprocess_pipeline_linear float_str_7_5 "cloud-training-bucket"
              "cloud-training-demos" "191231-235959" true calm)
    as [Htest _].
  split_and!.
  - exact (eq_trans (f_equal _ Hcloud) eq_refl).
  - exact (eq_trans (f_equal _ Htest) eq_refl).
  - exact (eq_trans Hrun (eq_sym (f_equal (λ p, [p]) Hcloud))).
Defined.

End CellInstances.

(* ===================================================================== *)
(** * More on the babyweight [to_csv]: exceptions, wrap-around, columns   *)
(* ===================================================================== *)

Section BabyweightMore.
Import Babyweight.
Variable float_str : spec_float → string.
Implicit Types (h : heap) (r : loc) (d : gmap string value) (k : string).

Lemma render_text_at cols d :
  render float_str cols d = join "," (map (text_at float_str d) cols).
Proof. reflexivity. Qed.

Lemma render_agree cols d d' :
  (∀ k, k ∈ cols → text_at float_str d k = text_at float_str d' k) →
  render float_str cols d = render float_str cols d'.
Proof.
  intros Hcols. rewrite !render_text_at. f_equal.
  apply map_ext_in. intros k Hk. apply Hcols. by apply list_elem_of_In.
Qed.

Lemma text_at_insert d k k' v :
  text_at float_str (<[k := v]> d) k'
  = if decide (k = k') then str float_str v else text_at float_str d k'.
Proof.
  unfold text_at. rewrite lookup_insert. by destruct (decide (k = k')).
Qed.

(** Dictionaries that agree on the plurality and on the text of every
    column give the same outcome. *)
Lemma lines_of_agree d d' :
  d !! "plurality" = d' !! "plurality" →
  (∀ k, k ∈ CSV_COLUMNS → text_at float_str d k = text_at float_str d' k) →
  lines_of float_str d = lines_of float_str d'.
Proof.
  intros Hpl Hcols. unfold lines_of. rewrite <-Hpl.
  destruct (d !! "plurality") as [p|]; [|done].
  destruct (gt_one p) as [multiple|]; [|done].
  destruct (sub_one p) as [i|]; [|done].
  cbn [mbind result_bind].
  destruct (list_getitem PLURALITY_NAMES i) as [name|]; [|done].
  cbn [mbind result_bind mret result_ret].
  do 2 f_equal; [|f_equal]; apply render_agree; intros k Hk;
    rewrite !text_at_insert; repeat case_decide; auto.
Qed.

Lemma list_getitem_int_raises {A} (l : list A) (i : Z) e :
  list_getitem_int l i = Raised e → e = IndexError.
Proof.
  unfold list_getitem_int.
  destruct (_ || _); [congruence|].
  destruct (l !! _); congruence.
Qed.

(** Out of range from the back, indexing counts from the end. *)
Lemma list_getitem_int_back {A} (l : list A) (i : Z) (a : A) :
  i < 0 → 0 ≤ i + Z.of_nat (length l) →
  l !! Z.to_nat (i + Z.of_nat (length l)) = Some a →
  list_getitem_int l i = Ok a.
Proof.
  intros Hi Hlo Hl. unfold list_getitem_int.
  pose proof (lookup_lt_Some _ _ _ Hl) as Hlen.
  destruct (Z.ltb_spec i 0); [|lia].
  destruct (Z.ltb_spec (i + Z.of_nat (length l)) 0); [lia|].
  destruct (Z.leb_spec (Z.of_nat (length l)) (i + Z.of_nat (length l)));
    [lia|].
  cbn [orb]. by rewrite Hl.
Qed.

(** X1. When the babyweight [to_csv] does not return, the exception tells
    why: [KeyError] for a row without the plurality column, [TypeError] for
    a plurality that is [None], a string or a float, [IndexError] for an
    integer plurality below -4 or above 5. *)
Theorem babyweight_to_csv_raises h r d :
  h !! r = Some d →
  (d !! "plurality" = None →
   (to_csv float_str r h).2 = Raised (KeyError "plurality"))
  ∧ (∀ p, d !! "plurality" = Some p → as_int p = None →
          (to_csv float_str r h).2 = Raised TypeError)
  ∧ (∀ p n, d !! "plurality" = Some p → as_int p = Some n →
            n < -4 ∨ 5 < n →
            (to_csv float_str r h).2 = Raised IndexError).
Proof.
  intros Hr. rewrite (to_csv_result float_str h r d Hr). unfold lines_of.
  split_and!.
  - by intros ->.
  - intros p -> Hp. by destruct p.
  - intros p n -> Hn Hrange.
    assert (gt_one p = Ok (1 <? n) ∧ sub_one p = Ok (VInt (n - 1)))
      as [-> ->].
    { destruct p as [|b|m|x|s]; try done; by injection Hn as <-. }
    cbn [mbind result_bind list_getitem].
    destruct (list_getitem_int PLURALITY_NAMES (n - 1)) as [name|e] eqn:Hidx.
    + assert (- Z.of_nat (length PLURALITY_NAMES) ≤ n - 1
              < Z.of_nat (length PLURALITY_NAMES)) as Hin
        by (apply list_getitem_int_ok; eauto).
      cbn [PLURALITY_NAMES length] in Hin. lia.
    + by rewrite (list_getitem_int_raises _ _ _ Hidx).
Qed.

(** X2. An integer plurality from -4 to 0 does not fail: the index
    [plurality - 1] is negative and counts from the end of the five names,
    so plurality 0 is written as the fifth name, -1 as the fourth, and so
    on, and the line without ultrasound says [Single(1)]. *)
Theorem babyweight_to_csv_wraps h r d (w m a g : value) (n : Z) :
  h !! r = Some d →
  d !! "weight_pounds" = Some w → d !! "is_male" = Some m →
  d !! "mother_age" = Some a → d !! "plurality" = Some (VInt n) →
  d !! "gestation_weeks" = Some g →
  -4 ≤ n ≤ 0 →
  ∃ name,
    PLURALITY_NAMES !! Z.to_nat (n + 4) = Some name
    ∧ (to_csv float_str r h).2
      = Ok [join "," [str float_str w; "Unknown"; str float_str a;
                      "Single(1)"; str float_str g];
            join "," [str float_str w; str float_str m; str float_str a;
                      name; str float_str g]].
Proof.
  intros Hr Hw Hm Ha Hp Hg Hn.
  rewrite (to_csv_result float_str h r d Hr).
  assert (∃ name, PLURALITY_NAMES !! Z.to_nat (n + 4) = Some name)
    as [name Hname].
  { apply lookup_lt_is_Some. cbn [PLURALITY_NAMES length]. lia. }
  exists name. split; [done|].
  unfold lines_of. rewrite Hp.
  cbn [gt_one sub_one list_getitem mbind result_bind].
  rewrite (list_getitem_int_back _ _ name);
    [|lia|cbn [PLURALITY_NAMES length]; lia
     |cbn [PLURALITY_NAMES length];
      by replace (n - 1 + Z.of_nat 5) with (n + 4) by lia].
  cbn [mbind result_bind mret result_ret].
  rewrite (render_babyweight _ _ w (VStr "Unknown") a
             (VStr (if 1 <? n then "Multiple(2+)" else "Single(1)")) g),
          (render_babyweight _ _ w m a (VStr name) g);
    [|by simplify_map_eq..].
  destruct (Z.ltb_spec 1 n); [lia|done].
Qed.

(** X3. A column that is missing from the row is written as one that holds
    [None]: for every column but plurality, the babyweight [to_csv] gives
    the same outcome on the row without the key as on the row with [None]
    under it. *)
Theorem babyweight_missing_is_none h1 r1 h2 r2 d k :
  k ≠ "plurality" →
  h1 !! r1 = Some (delete k d) →
  h2 !! r2 = Some (<[k := VNone]> d) →
  (to_csv float_str r1 h1).2 = (to_csv float_str r2 h2).2.
Proof.
  intros Hk Hr1 Hr2.
  rewrite (to_csv_result float_str h1 r1 _ Hr1).
  etrans; [|symmetry; exact (to_csv_result float_str h2 r2 _ Hr2)].
  apply lines_of_agree.
  - by rewrite lookup_delete_ne, lookup_insert_ne.
  - intros c _. unfold text_at. rewrite lookup_delete, lookup_insert.
    by destruct (decide (k = c)).
Qed.

End BabyweightMore.

(* ===================================================================== *)
(** * Columns read, and the first missing key                             *)
(* ===================================================================== *)

Section ColumnsRead.
Variable float_str : spec_float → string.
Implicit Types (h : heap) (r : loc) (d : gmap string value) (k : string).

Lemma fields_of_agree d d' cols :
  (∀ k, k ∈ cols → d !! k = d' !! k) →
  Taxifare.fields_of float_str d cols = Taxifare.fields_of float_str d' cols.
Proof.
  induction cols as [|k cols IH]; intros Hcols; [done|].
  cbn [Taxifare.fields_of]. rewrite <-(Hcols k) by apply list_elem_of_here.
  rewrite IH; [done|]. intros c Hc. apply Hcols. by apply list_elem_of_further.
Qed.

Lemma fields_of_raises d cols e :
  Taxifare.fields_of float_str d cols = Raised e →
  ∃ pre k post,
    cols = (pre ++ k :: post)%list ∧ e = KeyError k ∧ d !! k = None
    ∧ Forall (λ c, is_Some (d !! c)) pre.
Proof.
  induction cols as [|k cols IH]; cbn [Taxifare.fields_of]; [done|].
  destruct (d !! k) as [v|] eqn:Hk.
  - destruct (Taxifare.fields_of float_str d cols) as [fs|e'] eqn:Hrest;
      [done|].
    intros [= <-]. destruct (IH eq_refl) as (pre & k' & post & -> & -> & ? & ?).
    exists (k :: pre), k', post. split_and!; [done|done|done|].
    constructor; eauto.
  - intros [= <-]. exists [], k, cols. split_and!; [done|done|done|constructor].
Qed.

(** X4. Each [to_csv] reads its own columns and nothing else: two rows that
    agree on the five babyweight columns (or on the seven taxi-fare
    columns) give the same outcome, whatever they hold under [hashmonth] or
    any other key. *)
Theorem to_csv_reads_its_columns h1 r1 h2 r2 d d' :
  h1 !! r1 = Some d → h2 !! r2 = Some d' →
  ((∀ k, k ∈ Babyweight.CSV_COLUMNS → d !! k = d' !! k) →
   (Babyweight.to_csv float_str r1 h1).2 = (Babyweight.to_csv float_str r2 h2).2)
  ∧ ((∀ k, k ∈ Taxifare.CSV_COLUMNS → d !! k = d' !! k) →
     (Taxifare.to_csv float_str r1 h1).2 = (Taxifare.to_csv float_str r2 h2).2).
Proof.
  intros Hr1 Hr2. split; intros Hcols.
  - etrans; [exact (to_csv_result float_str h1 r1 d Hr1)|].
    etrans; [|symmetry; exact (to_csv_result float_str h2 r2 d' Hr2)].
    apply lines_of_agree.
    + apply Hcols. rewrite babyweight_columns.
      do 3 apply list_elem_of_further. apply list_elem_of_here.
    + intros k Hk. unfold text_at. by rewrite (Hcols k Hk).
  - etrans; [exact (taxi_to_csv_result float_str h1 r1 d Hr1)|].
    etrans; [|symmetry; exact (taxi_to_csv_result float_str h2 r2 d' Hr2)].
    unfold Taxifare.line_of. by rewrite (fields_of_agree d d' _ Hcols).
Qed.

(** X5. The taxi-fare [to_csv] can only fail with the [KeyError] of the
    first of its columns, in column order, that the row lacks; every column
    before it is there, and no line is returned. *)
Theorem taxi_to_csv_raises h r d e :
  h !! r = Some d →
  (Taxifare.to_csv float_str r h).2 = Raised e →
  ∃ pre k post,
    Taxifare.CSV_COLUMNS = (pre ++ k :: post)%list
    ∧ e = KeyError k ∧ d !! k = None
    ∧ Forall (λ c, is_Some (d !! c)) pre.
Proof.
  intros Hr. rewrite (taxi_to_csv_result float_str h r d Hr).
  unfold Taxifare.line_of.
  destruct (Taxifare.fields_of float_str d Taxifare.CSV_COLUMNS) as [fs|e']
    eqn:Hfields; [done|].
  intros [= <-]. by apply fields_of_raises.
Qed.

End ColumnsRead.

(* ===================================================================== *)
(** * Reading a line back: the fields between the commas                  *)
(* ===================================================================== *)

Section LineFields.
Variable float_str : spec_float → string.
Implicit Types (h : heap) (r : loc) (d : gmap string value) (k : string).
Implicit Types (c : ascii) (s t cur : string) (fields : list string).

Lemma count_char_app c s t :
  count_char c (s +:+ t) = (count_char c s + count_char c t)%nat.
Proof.
  induction s as [|a s IH]; [done|].
  change (String a s +:+ t) with (String a (s +:+ t)).
  cbn [count_char]. rewrite IH. by destruct (Ascii.eqb a c).
Qed.

Lemma split_go_free c s cur :
  count_char c s = 0%nat → split_go c s cur = [String.rev_app cur s].
Proof.
  revert cur. induction s as [|a s IH]; intros cur Hs; [done|].
  cbn [count_char] in Hs. cbn [split_go].
  destruct (Ascii.eqb a c); [done|]. by rewrite IH by lia.
Qed.

Lemma split_go_sep c s t cur :
  count_char c s = 0%nat →
  split_go c (s +:+ String c t) cur
  = String.rev_app cur s :: split_go c t EmptyString.
Proof.
  revert cur. induction s as [|a s IH]; intros cur Hs.
  - change (EmptyString +:+ String c t) with (String c t).
    cbn [split_go]. by rewrite Ascii.eqb_refl.
  - change (String a s +:+ String c t) with (String a (s +:+ String c t)).
    cbn [count_char] in Hs. cbn [split_go].
    destruct (Ascii.eqb a c); [done|]. by rewrite IH by lia.
Qed.

Lemma length_split_go c s cur :
  length (split_go c s cur) = S (count_char c s).
Proof.
  revert cur. induction s as [|a s IH]; intros cur; [done|].
  cbn [split_go count_char].
  destruct (Ascii.eqb a c); cbn [length Nat.add]; by rewrite IH.
Qed.

(** Splitting at the separator undoes joining, when no field holds it. *)
Lemma split_join fields :
  fields ≠ [] →
  Forall (λ f, count_char "," f = 0%nat) fields →
  split "," (join "," fields) = fields.
Proof.
  intros Hne Hfree. unfold split, join.
  induction Hfree as [|f fields Hf Hfree IH]; [done|].
  destruct fields as [|f' fields].
  - cbn [String.concat]. by rewrite split_go_free.
  - cbn [String.concat].
    change ("," +:+ ?x) with (String "," x).
    rewrite split_go_sep by done. cbn [String.rev_app]. f_equal.
    by apply IH.
Qed.

(** The number of fields of a joined line: one per text, and one more for
    every comma inside a text. *)
Lemma length_split_join fields :
  fields ≠ [] →
  length (split "," (join "," fields))
  = (length fields + sum_list (map (count_char ",") fields))%nat.
Proof.
  intros Hne. unfold split. rewrite length_split_go. unfold join.
  induction fields as [|f fields IH]; [done|].
  destruct fields as [|f' fields].
  - cbn [String.concat map sum_list sum_list_with length id]. lia.
  - change (String.concat "," (f :: f' :: fields))
      with (f +:+ String "," (String.concat "," (f' :: fields))).
    rewrite count_char_app.
    cbn [count_char map sum_list sum_list_with length id].
    cbn [map sum_list sum_list_with length id] in IH.
    change (Ascii.eqb "," ",") with true. cbv iota.
    assert (f' :: fields ≠ []) as Hne' by done.
    specialize (IH Hne'). lia.
Qed.

(** X6. The taxi-fare [to_csv] writes its texts between commas without
    quoting them. A line it returns for a row with the seven columns splits
    at the commas into seven fields plus one for every comma inside a text;
    when no text holds a comma, splitting gives back exactly the seven texts
    in column order. *)
Theorem taxi_line_fields h r d (v1 v2 v3 v4 v5 v6 v7 : value) :
  h !! r = Some d →
  d !! "fare_amount" = Some v1 → d !! "dayofweek" = Some v2 →
  d !! "hourofday" = Some v3 → d !! "pickuplon" = Some v4 →
  d !! "pickuplat" = Some v5 → d !! "dropofflon" = Some v6 →
  d !! "dropofflat" = Some v7 →
  let texts := map (str float_str) [v1; v2; v3; v4; v5; v6; v7] in
  ∃ line,
    (Taxifare.to_csv float_str r h).2 = Ok line
    ∧ length (split "," line)
      = (7 + sum_list (map (count_char ",") texts))%nat
    ∧ (Forall (λ f, count_char "," f = 0%nat) texts → split "," line = texts).
Proof.
  intros Hr H1 H2 H3 H4 H5 H6 H7 texts. exists (join "," texts).
  split_and!.
  - rewrite (taxi_to_csv_result float_str h r d Hr). unfold Taxifare.line_of.
    rewrite taxi_columns. cbn [Taxifare.fields_of].
    by rewrite H1, H2, H3, H4, H5, H6, H7.
  - by rewrite length_split_join.
  - intros Hfree. by apply split_join.
Qed.

Lemma list_getitem_int_elem {A} (l : list A) (i : Z) (a : A) :
  list_getitem_int l i = Ok a → a ∈ l.
Proof.
  unfold list_getitem_int. destruct (_ || _); [done|].
  destruct (l !! _) as [a'|] eqn:Hl; [|done].
  intros [= <-]. by eapply list_elem_of_lookup_2.
Qed.

Lemma list_getitem_elem {A} (l : list A) (i : value) (a : A) :
  list_getitem l i = Ok a → a ∈ l.
Proof. destruct i; try done; apply list_getitem_int_elem. Qed.

(** X7. Whenever the babyweight [to_csv] returns, it returns two lines, and
    when the texts of the weight, sex, age and gestation columns hold no
    comma, each line splits at the commas into exactly five fields. *)
Theorem babyweight_lines_have_five_fields h r d lines :
  h !! r = Some d →
  (Babyweight.to_csv float_str r h).2 = Ok lines →
  length lines = 2%nat
  ∧ ((∀ k, k ∈ Babyweight.CSV_COLUMNS → k ≠ "plurality" →
           count_char "," (text_at float_str d k) = 0%nat) →
     Forall (λ l, length (split "," l) = 5%nat) lines).
Proof.
  intros Hr. rewrite (to_csv_result float_str h r d Hr).
  unfold Babyweight.lines_of.
  destruct (d !! "plurality") as [p|]; [|done].
  destruct (gt_one p) as [multiple|]; [|done].
  destruct (sub_one p) as [i|]; [|done].
  cbn [mbind result_bind].
  destruct (list_getitem Babyweight.PLURALITY_NAMES i) as [name|] eqn:Hname;
    [|done].
  cbn [mbind result_bind mret result_ret]. intros [= <-].
  split; [done|]. intros Hfree.
  assert (count_char "," name = 0%nat) as Hname0.
  { apply list_getitem_elem in Hname.
    cbv [Babyweight.PLURALITY_NAMES] in Hname.
    repeat (apply elem_of_cons in Hname as [->|Hname]; [reflexivity|]).
    by apply elem_of_nil in Hname. }
  assert (∀ d', (∀ k, k ∈ Babyweight.CSV_COLUMNS →
                      count_char "," (text_at float_str d' k) = 0%nat) →
                length (split "," (render float_str Babyweight.CSV_COLUMNS d'))
                = 5%nat) as Hfive.
  { intros d' Hd'. rewrite render_text_at, length_split_join by done.
    rewrite babyweight_columns in Hd' |- *.
    cbn [map sum_list sum_list_with length id].
    rewrite !Hd'; [done|..];
      repeat first [apply list_elem_of_here | apply list_elem_of_further]. }
  repeat constructor; apply Hfive; intros k Hk; rewrite !text_at_insert;
    repeat case_decide; subst; try (by destruct multiple); auto.
Qed.

End LineFields.

(* ===================================================================== *)
(** * More on [preprocess]: waiting, and where the lines go               *)
(* ===================================================================== *)

Section PreprocessMore.
Import Cloud.
Variable float_str : spec_float → string.

Ltac run_cell :=
  cbv [Babyweight.preprocess Babyweight.before_run
       Babyweight.preprocess_pipeline Babyweight.apply_step Beam.pipe foldl
       for_each mapM app map all_return forallb andb tail
       mbind Cell_bind print invoke invoke_ignore_errors try_except mret
       Cell_ret fst snd].

Ltac next_call w :=
  lazymatch goal with
  | |- context [match w ?c with _ => _ end] =>
      destruct (w c) eqn:?; cbv beta iota
  end.

Ltac no_member H :=
  repeat (apply elem_of_cons in H as [H|H]; [discriminate H|]);
  by apply elem_of_nil in H.

(** X8. [preprocess] makes its calls in one fixed order and stops at the
    first that fails, the guarded removal apart. On the cloud path these are
    the removal, the two constructions, the six applications and [p.run()]:
    it never waits for the job and never prints [Done!], and it returns
    exactly when every call after the removal returns. In test mode they are
    the removal, [os.makedirs], the same constructions and applications,
    [p.run()] and the wait: it prints [Done!] exactly when it returns, which
    is exactly when every call after the removal returns. *)
Theorem preprocess_waits_only_in_test_mode
    (BUCKET PROJECT now : string) (w : world) :
  let cloud := Babyweight.preprocess float_str BUCKET PROJECT now false w in
  let test := Babyweight.preprocess float_str BUCKET PROJECT now true w in
  let cloud_calls :=
    (subprocess_check_call
       (split_whitespace
          ("gsutil -m rm -r " +:+ "gs://" +:+ BUCKET +:+ "/babyweight/preproc/"))
     :: Babyweight.before_run float_str BUCKET PROJECT now false
     ++ [pipeline_run "DataflowRunner"
           (Babyweight.preprocess_pipeline float_str
              ("gs://" +:+ BUCKET +:+ "/babyweight/preproc/")
              Babyweight.query)])%list in
  let test_calls :=
    (shutil_rmtree "./preproc"
     :: Babyweight.before_run float_str BUCKET PROJECT now true
     ++ [pipeline_run "DirectRunner"
           (Babyweight.preprocess_pipeline float_str "./preproc"
              (Babyweight.query +:+ " LIMIT 100"));
         job_wait_until_finish])%list in
  (calls (cloud.1) `prefix_of` cloud_calls)
  ∧ (job_wait_until_finish ∉ calls (cloud.1))
  ∧ ("Done!" ∉ printed (cloud.1))
  ∧ (cloud.2 = Ok tt ↔ all_return w (tail cloud_calls) = true)
  ∧ (calls (test.1) `prefix_of` test_calls)
  ∧ ("Done!" ∈ printed (test.1) ↔ test.2 = Ok tt)
  ∧ (test.2 = Ok tt ↔ all_return w (tail test_calls) = true).
Proof.
  cbv zeta. split_and!; run_cell; repeat next_call w; cbn.
  all: try (by eexists).
  all: try (intros Hin; no_member Hin).
  all: try (split; [intros Hin; no_member Hin|intros [=]]).
  all: try (split; [intros [=]|intros [=]]).
  all: try (split; [done|intros _; reflexivity]).
  all: split; [intros _; reflexivity|intros _].
  all: apply list_elem_of_further, list_elem_of_here.
Qed.

Lemma os_path_join_apart (a : string) :
  os_path_join a "train.csv" ≠ os_path_join a "eval.csv".
Proof.
  unfold os_path_join. cbv beta iota.
  destruct (String.rev a) as [|c t]; [done|].
  assert (∀ x : string, x ≠ "" →
            a +:+ x +:+ "train.csv" ≠ a +:+ x +:+ "eval.csv") as Hsep.
  { intros x Hx E. apply (inj (String.app a)) in E.
    apply (inj (String.app x)) in E. discriminate E. }
  assert (a +:+ "train.csv" ≠ a +:+ "eval.csv") as Hdir.
  { intros E. apply (inj (String.app a)) in E. discriminate E. }
  destruct c as [[] [] [] [] [] [] [] []]; first [exact Hdir | by apply Hsep].
Qed.

(** X9. The two steps never write to the same place: whatever the output
    directory, the file prefix of the [train] step differs from that of the
    [eval] step, and the six transforms of the pipeline carry six different
    labels. *)
Theorem preprocess_outputs_apart (OUTPUT_DIR query : string) :
  let p := Babyweight.preprocess_pipeline float_str OUTPUT_DIR query in
  NoDup (map Beam.label p)
  ∧ NoDup (omap (λ a, match Beam.transform a with
                      | Beam.Write_WriteToText path => Some path
                      | _ => None
                      end) p).
Proof.
  cbv zeta. split.
  - cbv [Babyweight.preprocess_pipeline Babyweight.apply_step Beam.pipe foldl
         app map Beam.label].
    repeat (apply NoDup_cons; split;
            [intros Hin; no_member Hin|]).
    apply NoDup_nil_2.
  - cbv [Babyweight.preprocess_pipeline Babyweight.apply_step Beam.pipe foldl
         app omap list_omap Beam.transform].
    apply NoDup_cons. split; [|apply NoDup_singleton].
    intros Hin%list_elem_of_singleton. by apply os_path_join_apart in Hin.
Qed.

End PreprocessMore.

(* ===================================================================== *)
(** * More on the natality queries: shares, NULLs and the two paths       *)
(* ===================================================================== *)

Section NatalityMore.
Import BigQuery.
Variable float_str : spec_float → string.
Variable FARM_FINGERPRINT : string → Z.

Lemma rem_block (k x : Z) :
  0 ≤ k → 0 ≤ x → Z.rem (100 * k + x) 100 = Z.rem x 100.
Proof.
  intros Hk Hx. rewrite !Z.rem_mod_nonneg by lia.
  rewrite Z.add_comm, Z.mul_comm. apply Z_mod_plus_full.
Qed.

Lemma selquery_where_block (step : string) (k x : Z) :
  0 ≤ k → 0 ≤ x →
  selquery_where step (100 * k + x) = selquery_where step x.
Proof.
  intros Hk Hx. unfold selquery_where, MOD. cbn. by rewrite rem_block.
Qed.

Lemma count_block (f : Z → bool) (k : Z) (l : list Z) :
  (∀ x, 0 ≤ x → f (100 * k + x) = f x) → Forall (λ x, 0 ≤ x) l →
  length (List.filter f (Z.add (100 * k) <$> l)) = length (List.filter f l).
Proof.
  intros Hf Hl. induction Hl as [|x l Hx Hl IH]; [done|].
  cbn [fmap list_fmap List.filter]. rewrite (Hf x Hx).
  destruct (f x); cbn [length]; by rewrite IH.
Qed.

(** X10. The split is 80 to 10 to 10: of any hundred consecutive hash
    values from a multiple of a hundred on, the train query selects 80 and
    the eval query 10; the other 10 are selected by neither and reach no
    output. *)
Theorem split_shares (k : Z) :
  0 ≤ k →
  let block := seqZ (100 * k) 100 in
  length (List.filter (λ h, is_true (selquery_where "train" h)) block) = 80%nat
  ∧ length (List.filter (λ h, is_true (selquery_where "eval" h)) block)
    = 10%nat
  ∧ length (List.filter
              (λ h, negb (is_true (selquery_where "train" h))
                    && negb (is_true (selquery_where "eval" h))) block)
    = 10%nat.
Proof.
  intros Hk block. unfold block.
  replace (seqZ (100 * k) 100) with (Z.add (100 * k) <$> seqZ 0 100)
    by (rewrite fmap_add_seqZ; f_equal; lia).
  assert (Forall (λ x, 0 ≤ x) (seqZ 0 100)) as Hpos.
  { apply Forall_forall. intros x [i [-> _]%lookup_seqZ]%list_elem_of_lookup.
    lia. }
  split_and!; rewrite count_block;
    [vm_compute; reflexivity| |done
    |vm_compute; reflexivity| |done
    |vm_compute; reflexivity| |done];
    intros x Hx; by rewrite !selquery_where_block.
Qed.

Lemma sql_and_true (a b : option bool) :
  sql_and a b = Some true → a = Some true ∧ b = Some true.
Proof. by destruct a as [[]|], b as [[]|]. Qed.

Lemma sql_gt_true (x : option Z) (c : Z) :
  sql_gt x c = Some true → ∃ v, x = Some v ∧ c < v.
Proof.
  destruct x as [v|]; [|done]. cbn. intros [= Hv%Z.ltb_lt]. eauto.
Qed.

(** X11. No NULL survives the filter of the query in the columns it tests:
    a row it keeps reaches [to_csv] with a float weight, positive integers
    for age, plurality and gestation, and a [hashmonth] that is an integer
    and not negative. Only [is_male] may still be [None]. *)
Theorem filtered_row_has_no_nulls (row : natality) :
  where_clause row = Some true →
  let d := rowdict FARM_FINGERPRINT row in
  (∃ x, d !! "weight_pounds" = Some (VFloat x))
  ∧ (∃ n, d !! "mother_age" = Some (VInt n) ∧ 0 < n)
  ∧ (∃ n, d !! "plurality" = Some (VInt n) ∧ 0 < n)
  ∧ (∃ n, d !! "gestation_weeks" = Some (VInt n) ∧ 0 < n)
  ∧ (∃ n, d !! "hashmonth" = Some (VInt n) ∧ 0 ≤ n)
  ∧ (∃ m, d !! "is_male" = Some m ∧ (m = VNone ∨ ∃ b, m = VBool b)).
Proof.
  intros Hwhere. unfold where_clause in Hwhere.
  apply sql_and_true in Hwhere as [(y & Hy & ?)%sql_gt_true Hwhere].
  apply sql_and_true in Hwhere as [Hx Hwhere].
  apply sql_and_true in Hwhere as [(a & Ha & ?)%sql_gt_true Hwhere].
  apply sql_and_true in Hwhere as [(p & Hp & ?)%sql_gt_true Hwhere].
  apply sql_and_true in Hwhere
    as [(g & Hg & ?)%sql_gt_true (m & Hm & ?)%sql_gt_true].
  destruct (weight_pounds row) as [x|] eqn:Hw; [|done].
  cbv zeta. unfold rowdict, hashmonth, cast_int_string.
  rewrite Hy, Hw, Ha, Hp, Hg, Hm. cbn [mbind option_bind from_option].
  split_and!.
  - exists x. by simplify_map_eq.
  - exists a. by simplify_map_eq.
  - exists p. by simplify_map_eq.
  - exists g. by simplify_map_eq.
  - eexists. split; [by simplify_map_eq|lia].
  - eexists. split; [by simplify_map_eq|].
    destruct (is_male row); eauto.
Qed.

(** X12. On the rows the filter keeps, the two paths part at the same
    rows: the Beam [to_csv] raises [IndexError] exactly on the rows for
    which the with-ultrasound branch of the query writes the text [NULL]
    as plurality (those with plurality above 5), and the branch without
    ultrasound never leaves the plurality NULL. *)
Theorem beam_fails_where_query_says_null (row : natality) h r :
  where_clause row = Some true →
  h !! r = Some (rowdict FARM_FINGERPRINT row) →
  ((Babyweight.to_csv float_str r h).2 = Raised IndexError
   ↔ out_plurality (ultrasound FARM_FINGERPRINT row) = Some "NULL")
  ∧ ((∃ lines, (Babyweight.to_csv float_str r h).2 = Ok lines)
     ↔ out_plurality (ultrasound FARM_FINGERPRINT row) ≠ Some "NULL")
  ∧ out_plurality (no_ultrasound FARM_FINGERPRINT row) ≠ None.
Proof.
  intros Hwhere Hr.
  destruct (filtered_row_has_no_nulls row Hwhere)
    as (_ & _ & (p & Hp & Hpos) & _).
  assert (plurality row = Some p) as Hpl.
  { unfold rowdict in Hp. destruct (plurality row); by simplify_map_eq. }
  rewrite (to_csv_result float_str h r _ Hr).
  unfold Babyweight.lines_of. rewrite Hp.
  cbn [gt_one sub_one list_getitem mbind result_bind].
  unfold ultrasound, no_ultrasound. cbn [out_plurality]. rewrite Hpl.
  pose proof (list_getitem_int_ok Babyweight.PLURALITY_NAMES (p - 1)) as Hok.
  cbn [Babyweight.PLURALITY_NAMES length] in Hok.
  destruct (list_getitem_int Babyweight.PLURALITY_NAMES (p - 1))
    as [name|e] eqn:Hidx.
  - assert (p = 1 ∨ p = 2 ∨ p = 3 ∨ p = 4 ∨ p = 5) as Hcases.
    { destruct Hok as [Hok _]. specialize (Hok (ex_intro _ name eq_refl)).
      lia. }
    cbn [mbind result_bind mret result_ret].
    destruct Hcases as [->|[->|[->|[->| ->]]]];
      (split_and!; [split; intros [=]|split; [done|eauto]|done]).
  - apply list_getitem_int_raises in Hidx as ->.
    assert (5 < p) as Hbig.
    { destruct (Z.le_gt_cases p 5) as [Hle|]; [|lia].
      destruct Hok as [_ [? ?]]; [lia|done]. }
    assert (match p with
            | 5 => Some "Quintuplets(5)" | 3 => Some "Triplets(3)"
            | 4 => Some "Quadruplets(4)" | 2 => Some "Twins(2)"
            | 1 => Some "Single(1)" | _ => Some "NULL"
            end = Some "NULL") as ->.
    { destruct p as [|q|q]; [lia| |lia].
      do 3 (destruct q as [q|q|]; try reflexivity; try lia). }
    split_and!.
    + done.
    + split; [intros [? [=]]|done].
    + destruct (Z.eqb_spec p 1); [lia|].
      destruct (Z.ltb_spec 1 p); [done|lia].
Qed.

End NatalityMore.

(* ===================================================================== *)
(** * More on the BigQuery cells: what they report, where they stop       *)
(* ===================================================================== *)

Section CellsMore.
Import Cloud.

Ltac run_cell :=
  cbv [BigQueryPreprocessing.create_dataset_cell
       BigQueryPreprocessing.load_tables_cell BigQueryPreprocessing.export_cell
       Taxifare.create_dataset_cell BigQuery.steps for_each mapM
       mbind Cell_bind print invoke invoke_ignore_errors try_except mret
       Cell_ret].

Ltac world_cases w :=
  repeat match goal with
         | |- context [w ?c] => destruct (w c) eqn:?
         end.

Ltac next_call w :=
  lazymatch goal with
  | |- context [match w ?c with _ => _ end] =>
      destruct (w c) eqn:?; cbv beta iota
  end.

Ltac no_member H :=
  repeat (apply elem_of_cons in H as [H|H]; [discriminate H|]);
  by apply elem_of_nil in H.

(** X13. A dataset cell can fail only before its [try]: while the import
    and the construction of the client and of the dataset object go well,
    the cell makes the one call [create_dataset], prints one line and
    returns; the line reports the creation when the call returns and says
    that the dataset already exists when the call raises, whatever the
    exception. When the cell does raise, the exception is that of the import
    or of a construction, [create_dataset] was not called and nothing was
    printed. *)
Theorem create_dataset_cell_reports
    (client_project PROJECT : string) (w : world) :
  let dataset_id :=
    client_project +:+ "." +:+ BigQueryPreprocessing.dataset_name in
  let setup :=
    [python_import "google.cloud.bigquery"; bigquery_Client None;
     Dataset_from_string dataset_id] in
  let cell := BigQueryPreprocessing.create_dataset_cell client_project w in
  let taxi_setup :=
    [python_import "google.cloud.bigquery"; bigquery_Client (Some PROJECT);
     bigquery_Dataset "bqml_taxifare"] in
  let taxi_cell := Taxifare.create_dataset_cell PROJECT w in
  (all_return w setup = true →
   cell = ((map Called setup
            ++ [Called (client_create_dataset dataset_id);
                Printed (match w (client_create_dataset dataset_id) with
                         | None => "Created dataset " +:+ dataset_id
                         | Some _ =>
                             "Dataset " +:+ client_project +:+ "."
                               +:+ BigQueryPreprocessing.dataset_name
                               +:+ " already exists"
                         end)])%list,
           Ok tt))
  ∧ (∀ e, cell.2 = Raised e →
          all_return w setup = false
          ∧ (∃ c, last (calls (cell.1)) = Some c ∧ c ∈ setup ∧ w c = Some e)
          ∧ (client_create_dataset dataset_id ∉ calls (cell.1))
          ∧ printed (cell.1) = [])
  ∧ (all_return w taxi_setup = true →
     taxi_cell
     = ((map Called taxi_setup
         ++ [Called (client_create_dataset "bqml_taxifare");
             Printed (match w (client_create_dataset "bqml_taxifare") with
                      | None => "Dataset created"
                      | Some _ => "Dataset already exists"
                      end)])%list,
        Ok tt))
  ∧ (∀ e, taxi_cell.2 = Raised e →
          all_return w taxi_setup = false
          ∧ (∃ c, last (calls (taxi_cell.1)) = Some c ∧ c ∈ taxi_setup
                  ∧ w c = Some e)
          ∧ (client_create_dataset "bqml_taxifare" ∉ calls (taxi_cell.1))
          ∧ printed (taxi_cell.1) = []).
Proof.
  cbv zeta. split_and!; run_cell; cbv [all_return forallb andb map app];
    repeat next_call w; cbn.
  all: try (intros [=]); try reflexivity.
  all: intros e' [= <-]; split_and!; try reflexivity.
  all: try (intros Hin; no_member Hin).
  all: eexists; split_and!; [reflexivity| |eassumption].
  all: eauto using list_elem_of_here, list_elem_of_further.
Qed.

(** X14. The load cell and the export cell work through the steps in order
    and stop at the first failure. The load cell starts the [train] query,
    waits for it, then starts the [eval] query and waits for it; the calls
    it makes are always a prefix of these four, it returns exactly when all
    four return, and when the [train] query or its wait fails nothing is
    asked for [eval]. The export cell does the same with the two
    extractions. *)
Theorem cells_stop_at_first_failure
    (BUCKET PROJECT client_project query : string) (w : world) :
  let q step := client_query (Babyweight.selquery step query)
                  ("babyweight_" +:+ step) in
  let qr step := query_job_result ("babyweight_" +:+ step) in
  let x step := client_extract_table ("babyweight_" +:+ step)
                  ("gs://" +:+ BUCKET +:+ "/"
                     +:+ ("babyweight/bq_data/" +:+ step +:+ "*.csv")) in
  let xr step := extract_job_result ("babyweight_" +:+ step) in
  let load := BigQueryPreprocessing.load_tables_cell client_project query w in
  let export := BigQueryPreprocessing.export_cell BUCKET PROJECT w in
  (calls (load.1) `prefix_of` [q "train"; qr "train"; q "eval"; qr "eval"])
  ∧ (load.2 = Ok tt
     ↔ w (q "train") = None ∧ w (qr "train") = None
       ∧ w (q "eval") = None ∧ w (qr "eval") = None)
  ∧ (q "eval" ∈ calls (load.1)
     → w (q "train") = None ∧ w (qr "train") = None)
  ∧ (calls (export.1) `prefix_of` [x "train"; xr "train"; x "eval"; xr "eval"])
  ∧ (export.2 = Ok tt
     ↔ w (x "train") = None ∧ w (xr "train") = None
       ∧ w (x "eval") = None ∧ w (xr "eval") = None)
  ∧ (x "eval" ∈ calls (export.1)
     → w (x "train") = None ∧ w (xr "train") = None).
Proof.
  cbv zeta. split_and!; run_cell; world_cases w; cbn.
  all: try (by eexists).
  all: try (split; [intros [=]|intros (? & ? & ? & ?)]; congruence).
  all: try (split; [done|intros _; reflexivity]).
  all: try (intros _; done).
  all: intros Hin;
    repeat (apply elem_of_cons in Hin as [Hin|Hin]; [discriminate Hin|]);
    by apply elem_of_nil in Hin.
Qed.

End CellsMore.

(* ===================================================================== *)
(** * More on [create_query]: the sample and its three parts              *)
(* ===================================================================== *)

Section CreateQueryMore.
Import BigQuery Taxifare.

Ltac bool_cases :=
  repeat match goal with
         | |- context [?a <? ?b] => destruct (Z.ltb_spec a b)
         | |- context [?a <=? ?b] => destruct (Z.leb_spec a b)
         | |- context [?a =? ?b] => destruct (Z.eqb_spec a b)
         end;
  cbn; try reflexivity; try lia.

Lemma keeps_eq (EVERY_N f : Z) :
  EVERY_N ≠ 0 →
  let m := Z.rem (Z.abs f) (EVERY_N * 100) in
  let sampled := Z.rem (Z.abs f) EVERY_N =? 1 in
  keeps "TRAIN" EVERY_N f
  = sampled && ((EVERY_N * 0 <=? m) && (m <? EVERY_N * 70))
  ∧ keeps "VALID" EVERY_N f
    = sampled && ((EVERY_N * 70 <=? m) && (m <? EVERY_N * 85))
  ∧ keeps "TEST" EVERY_N f
    = sampled && ((EVERY_N * 85 <=? m) && (m <? EVERY_N * 100)).
Proof.
  intros HN. cbv zeta. destruct subsample_eq as (HT & HV & HE).
  unfold keeps. rewrite HT, HV, HE. unfold basequery_sample, MOD.
  destruct (Z.eqb_spec EVERY_N 0); [done|].
  destruct (Z.eqb_spec (EVERY_N * 100) 0); [lia|].
  cbn [mbind option_bind].
  split_and!;
    by destruct (_ =? 1), (_ <=? _), (_ <? _).
Qed.


(** X16. Sampling needs [EVERY_N] of at least 2: with [EVERY_N = 1] the
    condition [MOD(..., 1) = 1] never holds, and with a negative [EVERY_N]
    the ranges are empty, so no phase keeps any row; an unknown phase keeps
    none either. *)
Theorem keeps_needs_every_n (phase : string) (EVERY_N f : Z) :
  keeps phase EVERY_N f = true →
  2 ≤ EVERY_N ∧ (phase = "TRAIN" ∨ phase = "VALID" ∨ phase = "TEST").
Proof.
  intros Hkeeps.
  assert (phase = "TRAIN" ∨ phase = "VALID" ∨ phase = "TEST") as Hphase.
  { unfold keeps, subsample in Hkeeps.
    destruct (String.eqb_spec phase "TRAIN"); [by left|].
    destruct (String.eqb_spec phase "VALID"); [by right; left|].
    destruct (String.eqb_spec phase "TEST"); [by right; right|done]. }
  split; [|done].
  destruct (Z.eq_dec EVERY_N 0) as [->|HN].
  { destruct Hphase as [->|[->| ->]]; done. }
  destruct (keeps_eq EVERY_N f HN) as (HT & HV & HE).
  pose proof (Z.rem_nonneg (Z.abs f) (EVERY_N * 100)) as Hm.
  pose proof (Z.rem_nonneg (Z.abs f) EVERY_N) as Hs.
  pose proof (Z.rem_1_r (Z.abs f)) as H1.
  assert (Z.rem (Z.abs f) EVERY_N = 1 → EVERY_N ≠ 1) as Hone
    by (intros E ->; lia).
  destruct Hphase as [->|[->| ->]];
    [rewrite HT in Hkeeps|rewrite HV in Hkeeps|rewrite HE in Hkeeps];
    apply andb_prop in Hkeeps as [Hsample Hrange];
    apply Z.eqb_eq in Hsample;
    apply andb_prop in Hrange as [Hlo%Z.leb_le Hhi%Z.ltb_lt]; lia.
Qed.



End CreateQueryMore.

(* ===================================================================== *)
(** * [FlatMap(to_csv)] over a bundle of rows                             *)
(* ===================================================================== *)

Section FlatMapMore.
Import Babyweight.
Variable float_str : spec_float → string.
Implicit Types (h : heap) (r : loc) (d : gmap string value).

Lemma lines_of_two d lines :
  lines_of float_str d = Ok lines → length lines = 2%nat.
Proof.
  unfold lines_of.
  destruct (d !! "plurality") as [p|]; [|done].
  destruct (gt_one p) as [multiple|]; [|done].
  destruct (sub_one p) as [i|]; [|done].
  cbn [mbind result_bind].
  destruct (list_getitem PLURALITY_NAMES i) as [name|]; [|done].
  cbn [mbind result_bind mret result_ret]. by intros [= <-].
Qed.

Lemma length_concat_two {A} (yields : list (list A)) :
  Forall (λ y, length y = 2%nat) yields →
  length (concat yields) = (2 * length yields)%nat.
Proof.
  induction 1 as [|y yields Hy _ IH]; [done|].
  cbn [concat length]. rewrite length_app, Hy, IH. lia.
Qed.

(** Running [to_csv] over the rows one after the other: every dictionary
    that was live keeps its items; the run returns two lines per row when
    every row has a plurality that can index the names, and raises when one
    has not. *)
Lemma mapM_to_csv_run (rows : list loc) h :
  Forall (λ r, is_Some (h !! r)) rows →
  ∃ h' res,
    mapM (to_csv float_str) rows h = (h', res)
    ∧ (∀ l, is_Some (h !! l) → h' !! l = h !! l)
    ∧ match res with
      | Ok yields =>
          length yields = length rows
          ∧ Forall (λ y, length y = 2%nat) yields
          ∧ Forall (λ r, ∃ d, h !! r = Some d ∧ plurality_ok d) rows
      | Raised _ =>
          Exists (λ r, ∃ d, h !! r = Some d ∧ ¬ plurality_ok d) rows
      end.
Proof.
  intros Hlive. revert h Hlive.
  induction rows as [|r rows IH]; intros h Hlive.
  { exists h, (Ok []). split_and!; [done|done|done|constructor..]. }
  apply Forall_cons in Hlive as [[d Hr] Hlive].
  destruct (to_csv_run float_str h r d Hr) as (h1 & Hrun & Hframe1).
  cbn [mapM]. rewrite bind_run, Hrun.
  destruct (lines_of float_str d) as [lines|e] eqn:Hlines.
  - assert (plurality_ok d) as Hok by (apply (lines_of_ok float_str); eauto).
    assert (Forall (λ r', is_Some (h1 !! r')) rows) as Hlive1.
    { eapply Forall_impl; [exact Hlive|]. intros r' Hr'. cbv beta.
      by rewrite Hframe1. }
    destruct (IH h1 Hlive1) as (h' & res & Hrest & Hframe & Hres).
    fold (mapM (to_csv float_str) rows).
    rewrite bind_run, Hrest.
    assert (∀ l, is_Some (h !! l) → h' !! l = h !! l) as Hframe'.
    { intros l Hl. rewrite Hframe by (by rewrite Hframe1). by apply Hframe1. }
    destruct res as [yields|e].
    + exists h', (Ok (lines :: yields)). rewrite ret_run.
      destruct Hres as (Hlen & Htwo & Hgood).
      split_and!; [done|done|cbn [length]; by rewrite Hlen| |].
      * constructor; [by eapply lines_of_two|done].
      * constructor; [by eauto|].
        apply Forall_forall. intros r' Hin.
        destruct (proj1 (Forall_forall _ _) Hgood r' Hin) as (d' & Hd' & Hok').
        exists d'. split; [|done]. rewrite <-Hframe1; [done|].
        by eapply (proj1 (Forall_forall _ _) Hlive).
    + exists h', (Raised e). split_and!; [done|done|].
      apply Exists_cons_tl.
      apply Exists_exists in Hres as (r' & Hin & d' & Hd' & Hbad).
      apply Exists_exists. exists r'. split; [done|]. exists d'.
      split; [|done]. rewrite <-Hframe1; [done|].
      by eapply (proj1 (Forall_forall _ _) Hlive).
  - exists h1, (Raised e). split_and!; [done|done|].
    apply Exists_cons_hd. exists d. split; [done|].
    intros Hok. apply (lines_of_ok float_str) in Hok as [? ?]. congruence.
Qed.

(** X18. [FlatMap(to_csv)] over a bundle of rows emits two lines for every
    row when every row has a plurality that can index the five names, and
    emits nothing and fails when one row has not: a single birth with
    plurality 6 fails the whole bundle. Either way every row dictionary,
    and every other object that was there, is left as it was. *)
Theorem flat_map_to_csv (rows : list loc) h :
  Forall (λ r, is_Some (h !! r)) rows →
  (Forall (λ r, ∃ d, h !! r = Some d ∧ plurality_ok d) rows →
   ∃ lines, (Beam.flat_map (to_csv float_str) rows h).2 = Ok lines
            ∧ length lines = (2 * length rows)%nat)
  ∧ (Exists (λ r, ∃ d, h !! r = Some d ∧ ¬ plurality_ok d) rows →
     ∃ e, (Beam.flat_map (to_csv float_str) rows h).2 = Raised e)
  ∧ (∀ l, is_Some (h !! l) →
          (Beam.flat_map (to_csv float_str) rows h).1 !! l = h !! l).
Proof.
  intros Hlive.
  destruct (mapM_to_csv_run rows h Hlive) as (h' & res & Hrun & Hframe & Hres).
  unfold Beam.flat_map. rewrite bind_run, Hrun.
  destruct res as [yields|e].
  - destruct Hres as (Hlen & Htwo & Hgood). rewrite ret_run. cbn [fst snd].
    split_and!; [| |done].
    + intros _. exists (concat yields). split; [done|].
      by rewrite length_concat_two, Hlen.
    + intros (r & Hin & d & Hd & Hbad)%Exists_exists.
      destruct (proj1 (Forall_forall _ _) Hgood r Hin) as (d' & Hd' & Hok).
      congruence.
  - cbn [fst snd]. split_and!; [|by eauto|done].
    intros Hgood.
    apply Exists_exists in Hres as (r & Hin & d & Hd & Hbad).
    destruct (proj1 (Forall_forall _ _) Hgood r Hin) as (d' & Hd' & Hok).
    congruence.
Qed.

End FlatMapMore.

(* ===================================================================== *)
(** * The BigQuery ML notebook: the training share and the age buckets    *)
(* ===================================================================== *)

Section BqmlMore.
Import BigQuery.
Variable FARM_FINGERPRINT : string → Z.

Lemma count_shift (f : Z → bool) (c : Z) (l : list Z) :
  (∀ x, 0 ≤ x → f (c + x) = f x) → Forall (λ x, 0 ≤ x) l →
  length (List.filter f (Z.add c <$> l)) = length (List.filter f l).
Proof.
  intros Hf Hl. induction Hl as [|x l Hx Hl IH]; [done|].
  cbn [fmap list_fmap List.filter]. rewrite (Hf x Hx).
  destruct (f x); cbn [length]; by rewrite IH.
Qed.

Lemma train_where_block (k x : Z) :
  0 ≤ k → 0 ≤ x →
  Bqml.train_where (Some (4 * k + x)) = Bqml.train_where (Some x).
Proof.
  intros Hk Hx. unfold Bqml.train_where, MOD. cbn.
  rewrite !Z.rem_mod_nonneg by lia.
  by rewrite Z.add_comm, Z.mul_comm, Z_mod_plus_full.
Qed.

(** X19. The models are trained on three quarters of the hash values: of
    any four consecutive values from a multiple of four on, the training
    condition [MOD(hashmonth, 4) < 3] selects three. A row whose month is
    NULL can pass the filter of the notebook, which does not test the month,
    but it has no [hashmonth] and the training condition never selects
    it. *)
Theorem bqml_train_share (k : Z) (row : natality) :
  0 ≤ k →
  length (List.filter (λ h, is_true (Bqml.train_where (Some h)))
            (seqZ (4 * k) 4)) = 3%nat
  ∧ (month row = None →
     is_true (Bqml.train_where (hashmonth FARM_FINGERPRINT row)) = false).
Proof.
  intros Hk. split.
  - replace (seqZ (4 * k) 4) with (Z.add (4 * k) <$> seqZ 0 4)
      by (rewrite fmap_add_seqZ; f_equal; lia).
    rewrite count_shift; [vm_compute; reflexivity| |].
    + intros x Hx. by rewrite train_where_block.
    + apply Forall_forall.
      intros x [i [-> _]%lookup_seqZ]%list_elem_of_lookup. lia.
  - intros Hm. unfold hashmonth, cast_int_string. rewrite Hm.
    by destruct (year row).
Qed.

(** The decimal text of a number holds no letter. *)
Lemma pretty_N_go_without (c : ascii) (x : N) (s : string) :
  (∀ d, pretty_N_char d ≠ c) →
  count_char c s = 0%nat → count_char c (pretty_N_go x s) = 0%nat.
Proof.
  intros Hc. revert s.
  induction (N.lt_wf_0 x) as [x _ IH]; intros s Hs.
  destruct (decide (x = 0)%N) as [->|Hx]; [by rewrite pretty_N_go_0|].
  rewrite pretty_N_go_step by lia.
  apply IH; [apply N.div_lt; lia|].
  cbn [count_char]. rewrite Hs.
  destruct (Ascii.eqb_spec (pretty_N_char (x `mod` 10)) c) as [E|]; [|done].
  by destruct (Hc _ E).
Qed.

Lemma pretty_Z_without (c : ascii) (n : Z) :
  (∀ d, pretty_N_char d ≠ c) → c ≠ "-"%char → c ≠ "0"%char →
  count_char c (pretty n) = 0%nat.
Proof.
  intros Hc Hdash Hzero.
  assert (∀ p, count_char c (pretty (N.pos p)) = 0%nat) as Hpos.
  { intros p. unfold pretty, pretty_N.
    destruct (decide (N.pos p = 0)%N); [done|].
    by apply pretty_N_go_without. }
  destruct n as [|p|p].
  - change (pretty 0) with "0". cbn [count_char].
    by destruct (Ascii.eqb_spec "0"%char c).
  - apply Hpos.
  - change (pretty (Z.neg p)) with (String "-" (pretty (N.pos p))).
    cbn [count_char]. rewrite Hpos.
    by destruct (Ascii.eqb_spec "-"%char c).
Qed.

Lemma pretty_Z_not_a_bucket (n : Z) : pretty n ≠ "LOW" ∧ pretty n ≠ "HIGH".
Proof.
  split; intros E.
  - assert (count_char "L" (pretty n) = 0%nat) as H0.
    { apply pretty_Z_without; [|done..].
      intros d. unfold pretty_N_char. by repeat case_match. }
    by rewrite E in H0.
  - assert (count_char "H" (pretty n) = 0%nat) as H0.
    { apply pretty_Z_without; [|done..].
      intros d. unfold pretty_N_char. by repeat case_match. }
    by rewrite E in H0.
Qed.

Lemma mother_age_bucket_eq (row : natality) (a : Z) :
  mother_age row = Some a →
  Bqml.mother_age_bucket row
  = Some (if a <? 18 then "LOW" else if 45 <? a then "HIGH" else pretty a).
Proof.
  intros Ha. unfold Bqml.mother_age_bucket, Bqml.sql_lt, sql_gt,
    cast_int_string. rewrite Ha. cbn [mbind option_bind Bqml.sql_if].
  by destruct (a <? 18), (45 <? a).
Qed.

(** X20. The age feature merges exactly the ages below 18 (as [LOW]) and
    the ages above 45 (as [HIGH]): two rows with a mother's age get the
    same feature text exactly when both ages are below 18, or both are
    above 45, or the two ages are equal. *)
Theorem mother_age_buckets (row1 row2 : natality) (a1 a2 : Z) :
  mother_age row1 = Some a1 → mother_age row2 = Some a2 →
  Bqml.mother_age_bucket row1 = Bqml.mother_age_bucket row2
  ↔ (a1 < 18 ∧ a2 < 18) ∨ (45 < a1 ∧ 45 < a2) ∨ a1 = a2.
Proof.
  intros H1 H2.
  rewrite (mother_age_bucket_eq row1 a1 H1), (mother_age_bucket_eq row2 a2 H2).
  pose proof (pretty_Z_not_a_bucket a1) as [HL1 HH1].
  pose proof (pretty_Z_not_a_bucket a2) as [HL2 HH2].
  destruct (Z.ltb_spec a1 18), (Z.ltb_spec a2 18),
    (Z.ltb_spec 45 a1), (Z.ltb_spec 45 a2); try lia; split.
  all: try (intros [?|[?|?]]; first [lia | done | by subst]).
  all: intros E%(inj Some).
  all: first [ by left | by right; left | congruence
             | right; right; by apply (inj pretty) ].
Qed.

End BqmlMore.

(* ===================================================================== *)
(** * The further properties at the sample rows                           *)
(* ===================================================================== *)

Section MoreInstances.
Import Samples.

Lemma babyweight_to_csv_raises_witness :
  (Babyweight.to_csv float_str_7_5 1%positive
     (store (birth_dict true 6 1234567))).2 = Raised IndexError.
Proof.
  destruct (babyweight_to_csv_raises float_str_7_5
              (store (birth_dict true 6 1234567)) 1%positive
              (birth_dict true 6 1234567)) as (_ & _ & Hindex);
    [reflexivity|].
  apply (Hindex (VInt 6) 6); [reflexivity|reflexivity|lia].
Defined.

Lemma babyweight_to_csv_wraps_witness :
  (Babyweight.to_csv float_str_7_5 1%positive
     (store (birth_dict true 0 1234567))).2
  = Ok ["7.5,Unknown,30,Single(1),39"; "7.5,True,30,Quintuplets(5),39"].
Proof.
  destruct (babyweight_to_csv_wraps float_str_7_5
              (store (birth_dict true 0 1234567)) 1%positive
              (birth_dict true 0 1234567)
              (VFloat f7_5) (VBool true) (VInt 30) (VInt 39) 0)
    as (name & Hname & Hlines);
    [reflexivity|reflexivity|reflexivity|reflexivity|reflexivity|reflexivity
    |lia|].
  injection Hname as <-. exact Hlines.
Defined.

Lemma babyweight_missing_is_none_witness :
  (Babyweight.to_csv float_str_7_5 1%positive
     (store (delete "weight_pounds" (birth_dict true 2 1234567)))).2
  = (Babyweight.to_csv float_str_7_5 1%positive
       (store (<["weight_pounds" := VNone]> (birth_dict true 2 1234567)))).2.
Proof.
  apply (babyweight_missing_is_none float_str_7_5 _ _ _ _
           (birth_dict true 2 1234567) "weight_pounds");
    [discriminate|reflexivity|reflexivity].
Defined.

Lemma to_csv_reads_its_columns_witness :
  (Babyweight.to_csv float_str_7_5 1%positive
     (store (birth_dict true 2 1234567))).2
  = (Babyweight.to_csv float_str_7_5 1%positive
       (store (birth_dict true 2 89))).2.
Proof.
  destruct (to_csv_reads_its_columns float_str_7_5
              (store (birth_dict true 2 1234567)) 1%positive
              (store (birth_dict true 2 89)) 1%positive
              (birth_dict true 2 1234567) (birth_dict true 2 89))
    as [Hbaby _]; [reflexivity|reflexivity|].
  apply Hbaby. intros k Hk. rewrite babyweight_columns in Hk.
  repeat (apply elem_of_cons in Hk as [->|Hk]; [reflexivity|]).
  by apply elem_of_nil in Hk.
Defined.

Lemma taxi_to_csv_raises_witness :
  ∃ pre k post,
    Taxifare.CSV_COLUMNS = (pre ++ k :: post)%list
    ∧ KeyError "pickuplat" = KeyError k
    ∧ delete "pickuplat" trip !! k = None
    ∧ Forall (λ c, is_Some (delete "pickuplat" trip !! c)) pre.
Proof.
  apply (taxi_to_csv_raises float_str_7_5
           (store (delete "pickuplat" trip)) 1%positive
           (delete "pickuplat" trip) (KeyError "pickuplat"));
    [reflexivity|vm_compute; reflexivity].
Defined.

Lemma taxi_line_fields_witness :
  ∃ line,
    (Taxifare.to_csv float_str_7_5 1%positive (store trip)).2 = Ok line
    ∧ split "," line = ["7.5"; "3"; "17"; "-74"; "41"; "-73"; "40"].
Proof.
  destruct (taxi_line_fields float_str_7_5 (store trip) 1%positive trip
              (VFloat f7_5) (VInt 3) (VInt 17) (VInt (-74)) (VInt 41)
              (VInt (-73)) (VInt 40))
    as (line & Hline & _ & Hsplit); try reflexivity.
  exists line. split; [exact Hline|].
  apply Hsplit. repeat constructor.
Defined.

Lemma babyweight_lines_have_five_fields_witness :
  length ["7.5,Unknown,30,Multiple(2+),39"; "7.5,True,30,Twins(2),39"] = 2%nat.
Proof.
  apply (babyweight_lines_have_five_fields float_str_7_5
           (store (birth_dict true 2 1234567)) 1%positive
           (birth_dict true 2 1234567));
    [reflexivity|vm_compute; reflexivity].
Defined.

Lemma split_shares_witness :
  length (List.filter
            (λ h, BigQuery.is_true (BigQuery.selquery_where "train" h))
            (seqZ 300 100)) = 80%nat.
Proof. apply (split_shares 3). lia. Defined.

Lemma filtered_row_has_no_nulls_witness :
  ∃ n, BigQuery.rowdict fingerprint_stub (birth None 3) !! "plurality"
       = Some (VInt n) ∧ 0 < n.
Proof.
  apply (filtered_row_has_no_nulls fingerprint_stub (birth None 3)).
  reflexivity.
Defined.

Lemma beam_fails_where_query_says_null_witness :
  (Babyweight.to_csv float_str_7_5 1%positive
     (store (BigQuery.rowdict fingerprint_stub (birth (Some true) 6)))).2
  = Raised IndexError.
Proof.
  apply (beam_fails_where_query_says_null float_str_7_5 fingerprint_stub
           (birth (Some true) 6)
           (store (BigQuery.rowdict fingerprint_stub (birth (Some true) 6)))
           1%positive); reflexivity.
Defined.


Lemma keeps_needs_every_n_witness :
  2 ≤ 2 ∧ ("VALID" = "TRAIN" ∨ "VALID" = "VALID" ∨ "VALID" = "TEST").
Proof. apply (keeps_needs_every_n "VALID" 2 (-141)). reflexivity. Defined.


Lemma flat_map_to_csv_witness :
  ∃ lines,
    (Beam.flat_map (Babyweight.to_csv float_str_7_5) [1%positive; 2%positive]
       (<[2%positive := birth_dict false 1 89]>
          (store (birth_dict true 2 1234567)))).2 = Ok lines
    ∧ length lines = 4%nat.
Proof.
  destruct (flat_map_to_csv float_str_7_5 [1%positive; 2%positive]
              (<[2%positive := birth_dict false 1 89]>
                 (store (birth_dict true 2 1234567)))) as (Hgood & _ & _).
  - repeat constructor; by eexists.
  - apply Hgood. repeat constructor.
    + exists (birth_dict true 2 1234567). split; [reflexivity|].
      exists (VInt 2), 2. split_and!; [reflexivity|reflexivity|lia|lia].
    + exists (birth_dict false 1 89). split; [reflexivity|].
      exists (VInt 1), 1. split_and!; [reflexivity|reflexivity|lia|lia].
Defined.

Lemma bqml_train_share_witness :
  length (List.filter (λ h, BigQuery.is_true (Bqml.train_where (Some h)))
            (seqZ 8 4)) = 3%nat.
Proof. apply (bqml_train_share fingerprint_stub 2 (birth None 1)). lia. Defined.

Lemma mother_age_buckets_witness :
  Bqml.mother_age_bucket (birth None 1) = Bqml.mother_age_bucket (birth None 2)
  ↔ (30 < 18 ∧ 30 < 18) ∨ (45 < 30 ∧ 45 < 30) ∨ 30 = 30.
Proof.
  apply (mother_age_buckets (birth None 1) (birth None 2) 30 30); reflexivity.
Defined.

Lemma preprocess_waits_only_in_test_mode_witness :
  (Babyweight.preprocess float_str_7_5 "cloud-training-bucket"
     "cloud-training-demos" "191231-235959" true calm).2 = Ok tt
  ∧ "Done!"
    ∈ Cloud.printed
        (Babyweight.preprocess float_str_7_5 "cloud-training-bucket"
           "cloud-training-demos" "191231-235959" true calm).1.
Proof.
  destruct (preprocess_waits_only_in_test_mode float_str_7_5
              "cloud-training-bucket" "cloud-training-demos" "191231-235959"
              calm) as (_ & _ & _ & _ & _ & Hdone & Hret).
  assert ((Babyweight.preprocess float_str_7_5 "cloud-training-bucket"
             "cloud-training-demos" "191231-235959" true calm).2 = Ok tt)
    as Hok by (apply Hret; reflexivity).
  split; [exact Hok|]. apply Hdone, Hok.
Defined.

Lemma create_dataset_cell_reports_witness :
  Cloud.printed
    (BigQueryPreprocessing.create_dataset_cell "demo" dataset_exists).1
  = ["Dataset demo.temp_babyweight_dataset already exists"]
  ∧ (BigQueryPreprocessing.create_dataset_cell "demo" no_credentials).2
    = Raised DefaultCredentialsError
  ∧ Cloud.printed
      (BigQueryPreprocessing.create_dataset_cell "demo" no_credentials).1
    = [].
Proof.
  destruct (create_dataset_cell_reports "demo" "cloud-training-demos"
              dataset_exists) as (Hok & _).
  destruct (create_dataset_cell_reports "demo" "cloud-training-demos"
              no_credentials) as (_ & Hfail & _).
  split_and!.
  - exact (eq_trans (f_equal (λ r, Cloud.printed r.1) (Hok eq_refl)) eq_refl).
  - reflexivity.
  - apply (Hfail DefaultCredentialsError eq_refl).
Defined.

End MoreInstances.
